(** * HydrexFi (paraswap-dex-lib): pool registry, pool-state subscriber and
      RPC quote sampler, embedded from the TypeScript sources

    - [Js]       : the fragment of the JavaScript runtime the sources rely on
                   (exceptions, try/catch, logging, array access and sort,
                   string helpers, [BigInt] of a string);
    - [Types]    : [types.ts] and the shapes of the remote interfaces;
    - [Factory]  : [hydrex-fi-factory.ts];
    - [EventPool]: [hydrex-fi-pool.ts];
    - [HydrexFi] : [hydrex-fi.ts] and its configuration;
    - the vocabulary of the statements and the concrete inputs of the
      examples, then the properties.

    bigint values are [Z] (arbitrary precision, so no wrap-around is written);
    the float [tvlUSD] is a rational; addresses and identifiers are strings. *)

From Stdlib Require Import ZArith QArith Bool Ascii String List Lia Lqa.
From Stdlib Require Import Permutation Sorted DecimalString.
Import ListNotations.
Local Open Scope string_scope.
Local Open Scope list_scope.
Local Open Scope Z_scope.

(* ================================================================== *)
(** ** The JavaScript runtime fragment *)
(* ================================================================== *)
Module Js.

(** What a [throw] carries.  Every case is an instance of [Error] with a
    message; [ErrorMsg] is a plain [new Error(msg)]. *)
Inductive Error : Type :=
| TypeError (msg : string)
| SyntaxError (msg : string)
| ErrorMsg (msg : string).

Definition message (e : Error) : string :=
  match e with TypeError m | SyntaxError m | ErrorMsg m => m end.

(** The outcome of evaluating an expression: a value or a thrown error. *)
Inductive Res (A : Type) : Type :=
| Ok (a : A)
| Throw (e : Error).
Arguments Ok {A} a.
Arguments Throw {A} e.

Definition res_bind {A B} (r : Res A) (k : A -> Res B) : Res B :=
  match r with Ok a => k a | Throw e => Throw e end.

(** [try { r } catch (e) { h e }] on a pure computation. *)
Definition res_catch {A} (r : Res A) (h : Error -> A) : A :=
  match r with Ok a => a | Throw e => h e end.

(** [l.map(f)] where the callback may throw: left to right, first throw wins. *)
Fixpoint mapR {A B} (f : A -> Res B) (l : list A) : Res (list B) :=
  match l with
  | [] => Ok []
  | x :: r =>
      res_bind (f x) (fun y => res_bind (mapR f r) (fun ys => Ok (y :: ys)))
  end.

(** The pairs (index, element) an array callback [(x, i) => ...] receives. *)
Definition indexed {A} (l : list A) : list (nat * A) :=
  combine (seq 0 (List.length l)) l.

(** [a[k]] for a number [k]: [undefined] ([None]) outside the array. *)
Definition js_get {A} (a : list A) (k : Z) : option A :=
  if k <? 0 then None else nth_error a (Z.to_nat k).

(** Every element must be a value before it is used as one. *)
Fixpoint all_defined {A} (l : list (option A)) : option (list A) :=
  match l with
  | [] => Some []
  | None :: _ => None
  | Some x :: r =>
      match all_defined r with Some xs => Some (x :: xs) | None => None end
  end.

(** *** Strings *)

Definition lower_ascii (c : ascii) : ascii :=
  let n := nat_of_ascii c in
  if ((65 <=? n) && (n <=? 90))%nat then ascii_of_nat (n + 32) else c.

(** [s.toLowerCase()] on ASCII text (addresses are hexadecimal ASCII). *)
Fixpoint toLowerCase (s : string) : string :=
  match s with
  | EmptyString => EmptyString
  | String c r => String (lower_ascii c) (toLowerCase r)
  end.

(** [s.includes(sub)]. *)
Fixpoint includes (s sub : string) : bool :=
  String.prefix sub s
  || match s with
     | EmptyString => false
     | String _ r => includes r sub
     end.

(** [l.join(sep)]. *)
Fixpoint join (sep : string) (l : list string) : string :=
  match l with
  | [] => EmptyString
  | [x] => x
  | x :: r => (x ++ sep ++ join sep r)%string
  end.

(** [name in handlers ? handlers[name] : undefined], for the handlers object
    a constructor fills key by key (an event name comes from the ABI and is
    no property of [Object.prototype]). *)
Fixpoint handler_of {H} (name : string) (hs : list (string * H)) : option H :=
  match hs with
  | [] => None
  | (k, h) :: r => if String.eqb name k then Some h else handler_of name r
  end.

(** [new Set(l).has(x)]. *)
Definition set_has (l : list string) (x : string) : bool :=
  existsb (String.eqb x) l.

(** *** [BigInt(string)]

    StringToBigInt: white space is trimmed; the empty text is [0n]; a decimal
    literal may carry a sign; [0x], [0o] and [0b] literals may not; anything
    else is a SyntaxError. *)

Definition is_space (c : ascii) : bool :=
  let n := nat_of_ascii c in
  ((n =? 32) || ((9 <=? n) && (n <=? 13)))%nat.

Fixpoint trim_left (s : string) : string :=
  match s with
  | String c r => if is_space c then trim_left r else s
  | EmptyString => EmptyString
  end.

Fixpoint rev_string (s acc : string) : string :=
  match s with
  | EmptyString => acc
  | String c r => rev_string r (String c acc)
  end.

Definition trim (s : string) : string :=
  rev_string (trim_left (rev_string (trim_left s) EmptyString)) EmptyString.

Definition digit_value (c : ascii) : option Z :=
  let n := nat_of_ascii c in
  if ((48 <=? n) && (n <=? 57))%nat then Some (Z.of_nat (n - 48))
  else if ((97 <=? n) && (n <=? 102))%nat then Some (Z.of_nat (n - 87))
  else if ((65 <=? n) && (n <=? 70))%nat then Some (Z.of_nat (n - 55))
  else None.

Fixpoint parse_digits (radix : Z) (s : string) (acc : Z) : option Z :=
  match s with
  | EmptyString => Some acc
  | String c r =>
      match digit_value c with
      | Some d => if d <? radix then parse_digits radix r (acc * radix + d) else None
      | None => None
      end
  end.

(** A literal needs one digit at least. *)
Definition parse_literal (radix : Z) (s : string) : option Z :=
  match s with
  | EmptyString => None
  | _ => parse_digits radix s 0
  end.

Definition parse_bigint (t : string) : option Z :=
  match t with
  | EmptyString => Some 0
  | String "0" (String "x" r) | String "0" (String "X" r) => parse_literal 16 r
  | String "0" (String "o" r) | String "0" (String "O" r) => parse_literal 8 r
  | String "0" (String "b" r) | String "0" (String "B" r) => parse_literal 2 r
  | String "-" r => option_map Z.opp (parse_literal 10 r)
  | String "+" r => parse_literal 10 r
  | _ => parse_literal 10 t
  end.

Definition BigInt (s : string) : Res Z :=
  match parse_bigint (trim s) with
  | Some z => Ok z
  | None => Throw (SyntaxError ("Cannot convert " ++ s ++ " to a BigInt")%string)
  end.

(** *** [Array.prototype.sort(comparefn)]

    The sort of V8, the engine the library runs on.  It is stable and consults
    the comparator only through the sign test [comparefn(a, b) < 0] (binary
    insertion on short arrays, merges of such runs on long ones).  A
    comparator that answers a negative number exactly when [a] must precede
    [b], and [1] on a tie, is a strict weak order under that test, and the
    stable sort of a strict weak order is unique; the insertion sort below
    computes it: the elements are taken from left to right and each one, the
    pivot, goes into the sorted prefix before the first element [x] with
    [comparefn(pivot, x) < 0], so behind the elements it ties with. *)

(** The test [q < 0]. *)
Definition Qneg (q : Q) : bool := negb (Qle_bool 0%Q q).

Fixpoint sort_insert {A} (comparefn : A -> A -> Q) (pivot : A) (l : list A)
  : list A :=
  match l with
  | [] => [pivot]
  | x :: r =>
      if Qneg (comparefn pivot x) then pivot :: x :: r
      else x :: sort_insert comparefn pivot r
  end.

Definition sort {A} (comparefn : A -> A -> Q) (l : list A) : list A :=
  fold_left (fun sorted pivot => sort_insert comparefn pivot sorted) l [].

(** *** Effects: the log and the remote batches

    A computation threads a [World] (what the logger received and which
    batches were sent to the remote reader) and ends in a value or a throw;
    the world survives a throw, as a log line written before one does. *)

Inductive Level : Type := LvInfo | LvWarn | LvError.

Section Monad.
Context {Call : Type}.

Record World : Type := mkWorld {
  w_logs : list (Level * string);
  w_batches : list (list Call);
}.

Definition M (A : Type) : Type := World -> World * Res A.

Definition ret {A} (a : A) : M A := fun w => (w, Ok a).

Definition throw {A} (e : Error) : M A := fun w => (w, Throw e).

Definition bind {A B} (m : M A) (k : A -> M B) : M B :=
  fun w =>
    match m w with
    | (w', Ok a) => k a w'
    | (w', Throw e) => (w', Throw e)
    end.

Definition lift {A} (r : Res A) : M A := fun w => (w, r).

(** [try { m } catch (e) { h e }]. *)
Definition try_catch {A} (m : M A) (h : Error -> M A) : M A :=
  fun w =>
    match m w with
    | (w', Ok a) => (w', Ok a)
    | (w', Throw e) => h e w'
    end.

(** [logger.info / warn / error]. *)
Definition log (lv : Level) (msg : string) : M unit :=
  fun w => (mkWorld (w_logs w ++ [(lv, msg)]) (w_batches w), Ok tt).

(** One batched request: the batch is recorded, the reader's answer is
    returned (or thrown). *)
Definition send {A} (reader : list Call -> Res A) (batch : list Call) : M A :=
  fun w => (mkWorld (w_logs w) (w_batches w ++ [batch]), reader batch).
End Monad.
Arguments World : clear implicits.
Arguments M : clear implicits.

End Js.

Import Js.

Notation "x <- m ;; k" := (bind m (fun x => k))
  (at level 61, m at next level, right associativity).
Notation "m ;;; k" := (bind m (fun _ => k))
  (at level 61, right associativity).

(* ================================================================== *)
(** ** [types.ts] and the shapes of the remote interfaces *)
(* ================================================================== *)
Module Types.

Inductive SwapSide : Type := SELL | BUY.

Definition SwapSide_eqb (a b : SwapSide) : bool :=
  match a, b with SELL, SELL | BUY, BUY => true | _, _ => false end.

Record Token : Type := mkToken {
  address : string;
  decimals : nat;
  symbol : option string;
}.

Record TransferFeeParams : Type := mkFees {
  srcFee : Z;
  destFee : Z;
  srcDexFee : Z;
  destDexFee : Z;
}.

Record DexParams : Type := mkDexParams {
  factory : string;
  quoter : string;
  router : string;
  subgraphURL : string;
  chunksCount : nat;
}.

(** [tvlUSD: number].  A finite double is a rational, and the rounded
    difference of two doubles has the sign of the exact one (it is zero only
    for equal operands), so comparisons on [Q] are the comparisons of the
    source. *)
Record Pool : Type := mkPool {
  poolAddress : string;
  token0 : string;
  token1 : string;
  deployer : string;
  tvlUSD : Q;
}.

Record PoolState : Type := mkPoolState {
  sqrtPriceX96 : Z;
  liquidity : Z;
  tick : Z;
  feeGrowthGlobal0X128 : Z;
  feeGrowthGlobal1X128 : Z;
  state_token0 : option string;
  state_token1 : option string;
  state_fee : option Z;
}.

Record PathStep : Type := mkPathStep {
  tokenIn : string;
  tokenOut : string;
  step_deployer : string;
}.

Record HydrexFiData : Type := mkData {
  path : list PathStep;
  feeOnTransfer : bool;
}.

(** One entry of [ExchangePrices<HydrexFiData>]. *)
Record PoolPrices : Type := mkPoolPrices {
  prices : list Z;
  unit_ : Z;
  data : HydrexFiData;
  poolIdentifiers : list string;
  exchange : string;
  gasCost : Z;
  poolAddresses : list string;
}.

Definition ExchangePrices : Type := list PoolPrices.

(** A raw log of the live feed. *)
Record Log : Type := mkLog {
  log_address : string;
  topics : list string;
  log_data : string;
  blockNumber : Z;
}.

(** What the event handlers read from [event.args].  A field the decoded
    event does not carry is [undefined] ([None]).  [sqrtPriceX96] and
    [liquidity] are read through [?.toString()], so each is the text that call
    yields; [tick] is an [int24], which the ABI decoder hands over as a
    JavaScript number; the others are address strings. *)
Record EventArgs : Type := mkArgs {
  arg_sqrtPriceX96 : option string;
  arg_tick : option Z;
  arg_liquidity : option string;
  arg_token0 : option string;
  arg_token1 : option string;
  arg_deployer : option string;
  arg_pool : option string;
}.

(** [LogDescription]: a decoded log. *)
Record LogDescription : Type := mkEvent {
  name : string;
  args : EventArgs;
}.

(** The quoter call [encodeFunctionData(fn, [from, to, deployer,
    amount.toString(), 0])]: the encoding is injective, so the call is kept as
    its function name and arguments. *)
Record QuoterCall : Type := mkQuoterCall {
  fn : string;
  call_from : string;
  call_to : string;
  call_deployer : string;
  amount : Z;
  limitSqrtPrice : Z;
}.

(** One call of a multicall batch, and one entry of its answer (the payload
    already through [decodeFunction: uint256ToBigInt]). *)
Record MultiCallParams : Type := mkCall {
  target : string;
  gasLimit : Z;
  callData : QuoterCall;
}.

Record MultiResult : Type := mkResult {
  success : bool;
  returnData : Z;
}.

(** The pools query of the subgraph: [block: { number }] unless the latest
    block is asked for, and the [$skip] and [$first] variables. *)
Record SubgraphQuery : Type := mkQuery {
  query_block : option Z;
  query_skip : Z;
  query_first : Z;
}.

(** One pool of the answer; [raw_tvl] is [parseFloat(totalValueLockedUSD)],
    [None] when that is NaN. *)
Record RawPool : Type := mkRawPool {
  raw_id : string;
  raw_deployer : string;
  raw_tvl : option Q;
  raw_token0 : string;
  raw_token1 : string;
}.

Record SubgraphResponse : Type := mkResponse {
  errors : option (list string);
  data_pools : option (list RawPool);
}.

Definition FactoryState : Type := unit.

End Types.

Import Types.

(** The world of this library: logs and multicall batches. *)
Definition Eff (A : Type) : Type := M MultiCallParams A.
Definition W : Type := World MultiCallParams.

(** What lies outside the sources: the helper the constructor receives
    ([dexHelper]) and the constants and utilities imported from the rest of
    the library. *)
Record DexHelper : Type := mkDexHelper {
  (** [dexHelper.config.wrapETH] on a token and on an address *)
  wrapETH : Token -> Token;
  wrapETH_address : string -> string;
  (** [dexHelper.multiWrapper.tryAggregate(mandatory, calls)] *)
  tryAggregate : bool -> list MultiCallParams -> Res (list MultiResult);
  (** [dexHelper.httpRequest.querySubgraph] on the pools query *)
  querySubgraph : SubgraphQuery -> Res SubgraphResponse;
}.

Record Utils : Type := mkUtils {
  NULL_ADDRESS : string;
  SRC_TOKEN_DEX_TRANSFERS : Z;
  DEST_TOKEN_DEX_TRANSFERS : Z;
  HYDREX_FI_GAS_COST : Z;
  HYDREX_FI_QUOTE_GASLIMIT : Z;
  isSrcTokenTransferFeeToBeExchanged : TransferFeeParams -> bool;
  isDestTokenTransferFeeToBeExchanged : TransferFeeParams -> bool;
  (** the fee applied to one amount: side, fee, number of transfers, amount *)
  applyTransferFee_amount : SwapSide -> Z -> Z -> Z -> Z;
  interpolate : list Z -> list Z -> list Z -> SwapSide -> list Z;
}.

(** Modelled from the spec: [applyTransferFee] of [lib/token-transfer-fee] is
    not among the sources.  Section 4.3, steps 3 and 6: it shrinks each sample
    amount (each sampled output) by the effective fee rate, so it maps the
    per-amount adjustment over the vector. *)
Definition applyTransferFee (U : Utils) (amounts : list Z) (side : SwapSide)
    (fee nTransfers : Z) : list Z :=
  map (applyTransferFee_amount U side fee nTransfers) amounts.

(** Modelled from the spec: [getBigIntPow] of [utils] is not among the
    sources.  Section 4.3, step 2: the unit amount is 10^decimals of the
    relevant token. *)
Definition getBigIntPow (decimals : nat) : Z := 10 ^ Z.of_nat decimals.

(** Modelled from the spec: [catchParseLogError] of [utils] is not among the
    sources.  Section 4.2: an exception while decoding is caught and logged. *)
Definition catchParseLogError (e : Error) : Eff unit :=
  log LvError ("Failed to parse log: " ++ message e)%string.

(** Modelled from the spec: [interpolate] of [utils] is not among the sources.
    Sections 3 and 4.3, step 7: the sampled curve is the synthetic point
    (0, 0) followed by the samples; a requested amount is interpolated
    linearly on the segment that holds it, one beyond the last sample is
    extrapolated from the last segment, and the zero amount always maps to
    zero.  [interpolate_from x0 y0 curve p] walks the segments that start at
    [(x0, y0)]. *)
Fixpoint interpolate_from (x0 y0 : Z) (curve : list (Z * Z)) (p : Z) : Z :=
  match curve with
  | [] => y0
  | (x1, y1) :: rest =>
      match rest with
      | _ :: _ =>
          if p <=? x1 then y0 + Z.quot ((y1 - y0) * (p - x0)) (x1 - x0)
          else interpolate_from x1 y1 rest p
      | [] => y0 + Z.quot ((y1 - y0) * (p - x0)) (x1 - x0)
      end
  end.

(** Modelled from the spec: what the design asks of [interpolate], one output
    per requested amount ([xPrime]) over the samples ([x], [y]). *)
Definition spec_interpolate (x y xPrime : list Z) (side : SwapSide) : list Z :=
  map (fun p => if p =? 0 then 0 else interpolate_from 0 0 (combine x y) p)
      xPrime.

(* ================================================================== *)
(** ** [hydrex-fi-factory.ts] *)
(* ================================================================== *)
Module Factory.

(** The object: [parentName], [logDecoder] (the factory ABI's [parseLog]) and
    the private, mutable [pools]. *)
Record t : Type := mk {
  parentName : string;
  logDecoder : Log -> Res LogDescription;
  pools : list Pool;
}.

Definition set_pools (f : t) (ps : list Pool) : t :=
  mk (parentName f) (logDecoder f) ps.

(** A loop or a recursion of the source runs on fuel here: [None] is "the fuel
    ran out", a value [Some v] is what the code returns. *)
Definition bindF {A B} (m : Eff (option A)) (k : A -> Eff (option B))
  : Eff (option B) :=
  x <- m ;; match x with Some a => k a | None => ret None end.

Definition getMockPoolsForTesting (U : Utils) : list Pool :=
  [ mkPool "0x82dbe18346a8656dbb5e76f74bf3ae279cc16b29"
           "0x4200000000000000000000000000000000000006"
           "0x833589fcd6edb6e08f4c7c32d4f71b54bda02913"
           (NULL_ADDRESS U) (283410973 # 1000);
    mkPool "0x3f9b863ef4b295d6ba370215bcca3785fcc44f44"
           "0x4200000000000000000000000000000000000006"
           "0xcbb7c0000ab88b473b1f5afd9ef808440eed33bf"
           (NULL_ADDRESS U) (401457372 # 1000);
    mkPool "0xd604cf300a4ae4345426df42ffb296aa35b4bef2"
           "0x50c5725949a6f0c72e6c4a641f24049a917db0cb"
           "0x833589fcd6edb6e08f4c7c32d4f71b54bda02913"
           (NULL_ADDRESS U) (206389885 # 1000) ].

(** The [map] that ends [queryOnePageForAllAvailablePoolsFromSubgraph]:
    [parseFloat(...) || 0] turns NaN (and zero) into zero. *)
Definition pool_of_raw (p : RawPool) : Pool :=
  mkPool (toLowerCase (raw_id p)) (toLowerCase (raw_token0 p))
         (toLowerCase (raw_token1 p)) (toLowerCase (raw_deployer p))
         (match raw_tvl p with Some v => v | None => 0%Q end).

Fixpoint queryOnePageForAllAvailablePoolsFromSubgraph (fuel : nat)
    (H : DexHelper) (f : t) (blockNumber skip limit : Z) (latestBlock : bool)
  : Eff (option (list Pool)) :=
  match fuel with
  | O => ret None
  | S fuel' =>
      res <- lift (querySubgraph H
                     (mkQuery (if latestBlock then None else Some blockNumber)
                              skip limit)) ;;
      match errors res with
      | Some (m :: _) =>
          if includes m "missing block" || includes m "not yet available"
          then
            log LvInfo
              (parentName f ++ ": subgraph fallback to the latest block...")%string ;;;
            queryOnePageForAllAvailablePoolsFromSubgraph
              fuel' H f blockNumber skip limit true
          else throw (ErrorMsg m)
      | _ =>
          match data_pools res with
          | Some raw => ret (Some (map pool_of_raw raw))
          | None => throw (TypeError "Cannot read properties of undefined")
          end
      end
  end.

Definition defaultPerPageLimit : Z := 1000.

(** The [while] of [queryAllAvailablePools], entered with the page just
    fetched. *)
Fixpoint queryAll_while (n fuel : nat) (H : DexHelper) (f : t)
    (blockNumber skip : Z) (pools currentPools : list Pool)
  : Eff (option (list Pool)) :=
  if Z.of_nat (List.length currentPools) =? defaultPerPageLimit then
    match n with
    | O => ret None
    | S n' =>
        let skip := skip + defaultPerPageLimit in
        bindF (queryOnePageForAllAvailablePoolsFromSubgraph
                 fuel H f blockNumber skip defaultPerPageLimit false)
              (fun currentPools =>
                 queryAll_while n' fuel H f blockNumber skip
                                (pools ++ currentPools) currentPools)
    end
  else ret (Some pools).

Definition queryAllAvailablePools (fuel : nat) (H : DexHelper) (f : t)
    (blockNumber : Z) : Eff (option (list Pool)) :=
  let skip := 0 in
  bindF (queryOnePageForAllAvailablePoolsFromSubgraph
           fuel H f blockNumber skip defaultPerPageLimit false)
        (fun currentPools =>
           queryAll_while fuel fuel H f blockNumber skip
                          ([] ++ currentPools) currentPools).

Definition initialize (fuel : nat) (H : DexHelper) (U : Utils) (f : t)
    (blockNumber : Z) : Eff (option t) :=
  try_catch
    (bindF (queryAllAvailablePools fuel H f blockNumber)
           (fun ps => ret (Some (set_pools f ps))))
    (fun error =>
       let errorMessage := message error in
       log LvWarn
         ("Failed to query subgraph, using mock pools for testing: "
            ++ errorMessage)%string ;;;
       ret (Some (set_pools f (getMockPoolsForTesting U)))).

(** The comparator handed to [sort]: [b.tvlUSD - a.tvlUSD] when that is not
    zero, else [1]. *)
Definition by_tvl (a b : Pool) : Q :=
  let tvlDiff := (tvlUSD b - tvlUSD a)%Q in
  if negb (Qeq_bool tvlDiff 0) then tvlDiff else 1%Q.

Definition pair_matches (_srcAddress _destAddress : string) (pool : Pool)
  : bool :=
  (String.eqb (token0 pool) _srcAddress && String.eqb (token1 pool) _destAddress)
  || (String.eqb (token0 pool) _destAddress
      && String.eqb (token1 pool) _srcAddress).

Definition getAvailablePoolsForPair (H : DexHelper) (f : t)
    (srcToken destToken : string) (blockNumber : Z) : list Pool :=
  let _srcToken := wrapETH_address H srcToken in
  let _destToken := wrapETH_address H destToken in
  let _srcAddress := toLowerCase _srcToken in
  let _destAddress := toLowerCase _destToken in
  sort by_tvl (filter (pair_matches _srcAddress _destAddress) (pools f)).

(** [x.toLowerCase()] on a field that may be [undefined]. *)
Definition lowered (field : string) (v : option string) : Res string :=
  match v with
  | Some s => Ok (toLowerCase s)
  | None =>
      Throw (TypeError ("Cannot read properties of undefined: " ++ field)%string)
  end.

(** [event.args.pool?.toLowerCase() || '']. *)
Definition lowered_or_empty (v : option string) : string :=
  match v with Some s => toLowerCase s | None => EmptyString end.

Definition handleNewPool (U : Utils) (event : LogDescription) (f : t) : Res t :=
  res_bind (lowered "token0" (arg_token0 (args event))) (fun token0 =>
  res_bind (lowered "token1" (arg_token1 (args event))) (fun token1 =>
  let deployer := NULL_ADDRESS U in
  let poolAddress := lowered_or_empty (arg_pool (args event)) in
  if negb (String.eqb poolAddress EmptyString)
  then Ok (set_pools f (pools f ++ [mkPool poolAddress token0 token1 deployer 0%Q]))
  else Ok f)).

Definition handleNewCustomPool (U : Utils) (event : LogDescription) (f : t)
  : Res t :=
  res_bind (lowered "token0" (arg_token0 (args event))) (fun token0 =>
  res_bind (lowered "token1" (arg_token1 (args event))) (fun token1 =>
  res_bind (lowered "deployer" (arg_deployer (args event))) (fun deployer =>
  let poolAddress := lowered_or_empty (arg_pool (args event)) in
  if negb (String.eqb poolAddress EmptyString)
  then Ok (set_pools f (pools f ++ [mkPool poolAddress token0 token1 deployer 0%Q]))
  else Ok f))).

(** [this.handlers], as the constructor fills it. *)
Definition handlers (U : Utils)
  : list (string * (LogDescription -> t -> Res t)) :=
  [ ("Pool", handleNewPool U); ("CustomPool", handleNewCustomPool U) ].

(** [processLog]: no [try] around the decoder or the handler. *)
Definition processLog (U : Utils) (f : t) (_state : FactoryState) (log : Log)
  : Eff (t * FactoryState) :=
  event <- lift (logDecoder f log) ;;
  f' <- match handler_of (name event) (handlers U) with
        | Some handler => lift (handler event f)
        | None => ret f
        end ;;
  ret (f', tt).

End Factory.

(* ================================================================== *)
(** ** [hydrex-fi-pool.ts] *)
(* ================================================================== *)
Module EventPool.

Record t : Type := mk {
  parentName : string;
  logDecoder : Log -> Res LogDescription;
  addressesSubscribed : list string;
}.

Definition set_price_tick (state : PoolState) (price tick : Z) : PoolState :=
  mkPoolState price (liquidity state) tick
              (feeGrowthGlobal0X128 state) (feeGrowthGlobal1X128 state)
              (state_token0 state) (state_token1 state) (state_fee state).

Definition set_liquidity (state : PoolState) (l : Z) : PoolState :=
  mkPoolState (sqrtPriceX96 state) l (tick state)
              (feeGrowthGlobal0X128 state) (feeGrowthGlobal1X128 state)
              (state_token0 state) (state_token1 state) (state_fee state).

(** [BigInt(v?.toString() || prior)]: the empty text and [undefined] are
    falsy, and [BigInt] of the bigint [prior] is [prior]. *)
Definition bigint_or_prior (v : option string) (prior : Z) : Res Z :=
  match v with
  | Some (String c r) => BigInt (String c r)
  | Some EmptyString | None => Ok prior
  end.

(** [BigInt(v?.toString() || '0')]. *)
Definition bigint_or_zero (v : option string) : Res Z :=
  match v with
  | Some (String c r) => BigInt (String c r)
  | Some EmptyString | None => BigInt "0"
  end.

(** [Number(v || prior)] on a number or [undefined]: zero is falsy too. *)
Definition number_or_prior (v : option Z) (prior : Z) : Z :=
  match v with
  | Some n => if n =? 0 then prior else n
  | None => prior
  end.

Definition handleSwap (event : LogDescription) (state : PoolState) (log : Log)
  : option PoolState :=
  res_catch
    (res_bind (bigint_or_prior (arg_sqrtPriceX96 (args event))
                               (sqrtPriceX96 state)) (fun price =>
     Ok (Some (set_price_tick state price
                 (number_or_prior (arg_tick (args event)) (tick state))))))
    (fun error => Some state).

Definition handleMint (event : LogDescription) (state : PoolState) (log : Log)
  : option PoolState :=
  res_catch
    (res_bind (bigint_or_zero (arg_liquidity (args event)))
       (fun liquidityDelta =>
          Ok (Some (set_liquidity state (liquidity state + liquidityDelta)))))
    (fun error => Some state).

Definition handleBurn (event : LogDescription) (state : PoolState) (log : Log)
  : option PoolState :=
  res_catch
    (res_bind (bigint_or_zero (arg_liquidity (args event)))
       (fun liquidityDelta =>
          Ok (Some (set_liquidity state (liquidity state - liquidityDelta)))))
    (fun error => Some state).

Definition handleCollect (event : LogDescription) (state : PoolState)
    (log : Log) : option PoolState :=
  Some state.

Definition handlers
  : list (string * (LogDescription -> PoolState -> Log -> option PoolState)) :=
  [ ("Swap", handleSwap); ("Mint", handleMint); ("Burn", handleBurn);
    ("Collect", handleCollect) ].

(** [processLog]: the decoder and the handler run inside the [try]; a handler
    found returns from inside it, anything else falls through to
    [return null]. *)
Definition processLog (p : t) (state : PoolState) (log : Log)
  : Eff (option PoolState) :=
  returned <-
    try_catch
      (event <- lift (logDecoder p log) ;;
       match handler_of (name event) handlers with
       | Some handler => ret (Some (handler event state log))
       | None => ret None
       end)
      (fun e => catchParseLogError e ;;; ret None) ;;
  match returned with
  | Some result => ret result
  | None => ret None
  end.

End EventPool.

(* ================================================================== *)
(** ** [hydrex-fi.ts] and [config.ts] *)
(* ================================================================== *)
Module HydrexFi.

(** [HydrexFiConfig.HydrexFi[Network.BASE]]. *)
Definition HydrexFiConfig : DexParams :=
  mkDexParams "0x36077D39cdC65E1e3FB65810430E5b2c4D5fA29E"
              "0x08b46265643a5389529D6f6616FA4a0d66F13Fdb"
              "0x6f4bE24d7dC93b6ffcBAb3Fd0747c5817Cea3F9e"
              "https://api.goldsky.com/api/public/project_cmafph25ltm5g01yv3vr7bsoe/subgraphs/analytics/v1.0.1/gn"
              10.

Record t : Type := mk {
  dexKey : string;
  config : DexParams;
  factory : Factory.t;
}.

(** A number in a template literal. *)
Definition show_nat (n : nat) : string :=
  NilZero.string_of_uint (Nat.to_uint n).

Definition show_side (side : SwapSide) : string :=
  match side with SELL => "SELL" | BUY => "BUY" end.

Definition _sortTokens (srcAddress destAddress : string) : list string :=
  sort (fun a b => if String.ltb a b then (-1)%Q else 1%Q)
       [srcAddress; destAddress].

Definition getPoolIdentifier (this : t)
    (srcAddress destAddress deployerAddress : string) : string :=
  let tokenAddresses := join "_" (_sortTokens srcAddress destAddress) in
  (dexKey this ++ "_" ++ tokenAddresses ++ "_" ++ deployerAddress)%string.

Definition _getLoweredAddresses (srcToken destToken : Token)
  : string * string :=
  (toLowerCase (address srcToken), toLowerCase (address destToken)).

Definition getMultiCallData (this : t) (U : Utils) (from to deployer : string)
    (amount : Z) (isSELL : bool) : MultiCallParams :=
  mkCall (quoter (config this)) (HYDREX_FI_QUOTE_GASLIMIT U)
         (mkQuoterCall
            (if isSELL then "quoteExactInputSingle"
             else "quoteExactOutputSingle")
            from to deployer amount 0).

(** bigint division truncates: [Z.quot]. *)
Definition getMockPriceForTesting (amount : Z) (isSELL : bool) : Z :=
  if amount =? 0 then 0
  else if isSELL then Z.quot (amount * 2500) (10 ^ 12)
  else Z.quot (amount * 10 ^ 12) 2500.

(** [[unitVolume].concat(Array.from(Array(chunksCount).keys()).map(i =>
    amounts[(i + 1) * _width]))]: an index outside [amounts] reads
    [undefined]. *)
Definition chunkAmounts (chunksCount : nat) (unitVolume : Z) (amounts : list Z)
  : list (option Z) :=
  let chunks := Z.of_nat (List.length amounts) - 1 in
  let _width := chunks / Z.of_nat chunksCount in
  Some unitVolume
    :: map (fun i => js_get amounts ((Z.of_nat i + 1) * _width))
           (seq 0 chunksCount).

(** The callback of [chunkedAmounts.map((_, i) => ...)]: the amount is
    [chunkedAmounts[i]], the element the callback is at. *)
Definition sample_rate (results : list MultiResult) (allFailed isSELL : bool)
    (offset : nat) (sample : nat * Z) : Res Z :=
  let (i, chunkedAmount) := sample in
  match nth_error results (offset + i) with
  | None => Throw (TypeError "Cannot read properties of undefined: success")
  | Some res =>
      if success res then Ok (returnData res)
      else if allFailed then Ok (getMockPriceForTesting chunkedAmount isSELL)
      else Ok 0
  end.

(** The callback of [pools.map((pool, poolIndex) => ...)]. *)
Definition pool_prices (this : t) (U : Utils) (from to : Token)
    (amounts : list Z) (side : SwapSide) (transferFees : TransferFeeParams)
    (chunkedAmounts amountsForQuote : list Z) (results : list MultiResult)
    (allFailed : bool) (entry : nat * Pool) : Res PoolPrices :=
  let (poolIndex, pool) := entry in
  let isSELL := SwapSide_eqb side SELL in
  let offset := (poolIndex * List.length amountsForQuote)%nat in
  res_bind
    (mapR (sample_rate results allFailed isSELL offset) (indexed chunkedAmounts))
    (fun _rates =>
       let _ratesWithFee :=
         if isDestTokenTransferFeeToBeExchanged U transferFees
         then applyTransferFee U _rates side (destDexFee transferFees)
                               (DEST_TOKEN_DEX_TRANSFERS U)
         else _rates in
       (* [_ratesWithFee[0]]: the samples start with the unit volume, so
          index 0 is there *)
       let unit := hd 0 _ratesWithFee in
       let prices :=
         interpolate U (tl chunkedAmounts) (tl _ratesWithFee) amounts side in
       Ok (mkPoolPrices prices unit
             (mkData [mkPathStep (address from) (address to) (deployer pool)]
                     (isSrcTokenTransferFeeToBeExchanged U transferFees))
             [getPoolIdentifier this (token0 pool) (token1 pool)
                                (deployer pool)]
             (dexKey this) (HYDREX_FI_GAS_COST U) [poolAddress pool])).

Definition getPricingFromRpc (this : t) (H : DexHelper) (U : Utils)
    (from to : Token) (amounts : list Z) (side : SwapSide) (pools : list Pool)
    (transferFees : TransferFeeParams) : Eff (option ExchangePrices) :=
  if (List.length pools =? 0)%nat then ret None
  else
    log LvWarn
      ("fallback to rpc for " ++ show_nat (List.length pools) ++ " pool(s)")%string ;;;
    let isSELL := SwapSide_eqb side SELL in
    let _isSrcTokenTransferFeeToBeExchanged :=
      isSrcTokenTransferFeeToBeExchanged U transferFees in
    let unitVolume := getBigIntPow (decimals (if isSELL then from else to)) in
    (* every sample is dereferenced before the batch is sent (bigint
       arithmetic in applyTransferFee, amount.toString() in
       getMultiCallData): an undefined one throws *)
    match all_defined (chunkAmounts (chunksCount (config this)) unitVolume amounts) with
    | None => throw (TypeError "Cannot read properties of undefined: toString")
    | Some chunkedAmounts =>
        let amountsForQuote :=
          if _isSrcTokenTransferFeeToBeExchanged
          then applyTransferFee U chunkedAmounts side (srcDexFee transferFees)
                                (SRC_TOKEN_DEX_TRANSFERS U)
          else chunkedAmounts in
        let calldata :=
          flat_map
            (fun pool =>
               map (fun amount =>
                      getMultiCallData this U (address from) (address to)
                                       (deployer pool) amount isSELL)
                   amountsForQuote)
            pools in
        results <- send (tryAggregate H false) calldata ;;
        let allFailed := forallb (fun r => negb (success r)) results in
        (if allFailed
         then log LvWarn "All quoter calls failed, using mock pricing for testing"
         else ret tt) ;;;
        result <- lift (mapR (pool_prices this U from to amounts side
                                transferFees chunkedAmounts amountsForQuote
                                results allFailed)
                             (indexed pools)) ;;
        ret (Some result)
    end.

(** [srcToken.symbol || srcToken.address]. *)
Definition symbol_or_address (token : Token) : string :=
  match symbol token with
  | Some (String c r) => String c r
  | Some EmptyString | None => address token
  end.

(** The body of the [try] of [getPricesVolume]. *)
Definition getPricesVolume_try (this : t) (H : DexHelper) (U : Utils)
    (srcToken destToken : Token) (amounts : list Z) (side : SwapSide)
    (blockNumber : Z) (limitPools : option (list string))
    (transferFees : TransferFeeParams) : Eff (option ExchangePrices) :=
  let _isSrcTokenTransferFeeToBeExchanged :=
    isSrcTokenTransferFeeToBeExchanged U transferFees in
  if _isSrcTokenTransferFeeToBeExchanged && SwapSide_eqb side BUY
  then ret None
  else
    let _srcToken := wrapETH H srcToken in
    let _destToken := wrapETH H destToken in
    let (_srcAddress, _destAddress) :=
      _getLoweredAddresses _srcToken _destToken in
    if String.eqb _srcAddress _destAddress then ret None
    else
      let pools :=
        Factory.getAvailablePoolsForPair H (factory this) _srcAddress
                                         _destAddress blockNumber in
      let pools :=
        match limitPools with
        | Some (id :: ids) =>
            let limitPoolsSet := id :: ids in
            filter
              (fun pool =>
                 let poolIdentifier :=
                   getPoolIdentifier this _srcAddress _destAddress
                                     (deployer pool) in
                 set_has limitPoolsSet poolIdentifier)
              pools
        | Some [] | None => pools
        end in
      rpcPrice <- getPricingFromRpc this H U _srcToken _destToken amounts side
                                    pools transferFees ;;
      ret rpcPrice.

Definition getPricesVolume (this : t) (H : DexHelper) (U : Utils)
    (srcToken destToken : Token) (amounts : list Z) (side : SwapSide)
    (blockNumber : Z) (limitPools : option (list string))
    (transferFees : TransferFeeParams) : Eff (option ExchangePrices) :=
  try_catch
    (getPricesVolume_try this H U srcToken destToken amounts side blockNumber
                         limitPools transferFees)
    (fun e =>
       log LvError
         ("Error_getPricesVolume " ++ symbol_or_address srcToken ++ ", "
            ++ symbol_or_address destToken ++ ", " ++ show_side side ++ ": "
            ++ message e)%string ;;;
       ret None).

End HydrexFi.

(* ================================================================== *)
(** ** [hydrex-fi.ts]: pool identifiers, path encoding, top pools *)
(* ================================================================== *)
Module Dex.

Definition getPoolIdentifiers (this : HydrexFi.t) (H : DexHelper)
    (srcToken destToken : Token) (side : SwapSide) (blockNumber : Z)
  : list string :=
  let _srcToken := wrapETH H srcToken in
  let _destToken := wrapETH H destToken in
  let (_srcAddress, _destAddress) :=
    HydrexFi._getLoweredAddresses _srcToken _destToken in
  if String.eqb _srcAddress _destAddress then []
  else
    let pools :=
      Factory.getAvailablePoolsForPair H (HydrexFi.factory this) _srcAddress
                                       _destAddress blockNumber in
    if (List.length pools =? 0)%nat then []
    else
      map (fun pool =>
             HydrexFi.getPoolIdentifier this _srcAddress _destAddress
                                        (deployer pool))
          pools.

(** The callback of the [reduce] of [_encodePath], on the accumulator
    [{ _path, types }]. *)
Definition encodePath_step (acc : list string * list string)
    (entry : nat * PathStep) : list string * list string :=
  let (_path, types) := acc in
  let (index, curr) := entry in
  if (index =? 0)%nat
  then ([tokenIn curr; step_deployer curr; tokenOut curr],
        ["address"; "address"; "address"])
  else (_path ++ [step_deployer curr; tokenOut curr],
        types ++ ["address"; "address"]).

(** [_encodePath]; [pack] is [solidity.pack(types, values)] of the ethers
    library, which may throw. *)
Definition _encodePath (pack : list string -> list string -> Res string)
    (path : list PathStep) (side : SwapSide) : Res string :=
  if (List.length path =? 0)%nat then Ok "0x"
  else
    let (_path, types) :=
      fold_left encodePath_step (indexed path) ([], []) in
    if SwapSide_eqb side BUY then pack (rev types) (rev _path)
    else pack types _path.

(** One pool of the top-pools answer.  [top_decimals] is
    [parseInt(token.decimals)] ([None] for NaN) and [top_liquidityUSD] is
    [parseFloat(pool.totalValueLockedUSD) * HYDREX_FI_EFFICIENCY_FACTOR] for
    a [totalValueLockedUSD] that is a decimal numeral: a finite double, hence
    a rational.  A value that parses to NaN is not modelled. *)
Record TopToken : Type := mkTopToken {
  top_token_id : string;
  top_decimals : option Z;
}.

Record TopPool : Type := mkTopPool {
  top_id : string;
  top_token0 : TopToken;
  top_token1 : TopToken;
  top_liquidityUSD : Q;
}.

(** [res.data] of the top-pools query: [pools0] and [pools1], each possibly
    missing; the response itself may lack [data]. *)
Record TopPoolsData : Type := mkTopData {
  pools0 : option (list TopPool);
  pools1 : option (list TopPool);
}.

Record TopResponse : Type := mkTopResponse {
  top_data : option TopPoolsData;
}.

Record ConnectorToken : Type := mkConnector {
  connector_address : string;
  connector_decimals : option Z;
}.

Record PoolLiquidity : Type := mkPoolLiquidity {
  liquidity_exchange : string;
  liquidity_address : string;
  connectorTokens : list ConnectorToken;
  liquidityUSD : Q;
}.

(** [_querySubgraph]: the request for [token] and [count]; whatever it throws
    is logged as a warning and answered with two empty lists. *)
Definition _querySubgraph (this : HydrexFi.t)
    (request : string -> nat -> Res TopResponse) (token : string) (count : nat)
  : Eff (option TopPoolsData) :=
  try_catch
    (res <- lift (request token count) ;;
     ret (top_data res))
    (fun e =>
       let errorMessage := message e in
       log LvWarn
         (HydrexFi.dexKey this
            ++ ": can not query subgraph (likely in test environment): "
            ++ errorMessage)%string ;;;
       ret (Some (mkTopData (Some []) (Some [])))).

(** The entry built for a pool of [pools0] (connector [token1]) and of
    [pools1] (connector [token0]). *)
Definition liquidity_of (this : HydrexFi.t) (connector : TopPool -> TopToken)
    (pool : TopPool) : PoolLiquidity :=
  mkPoolLiquidity (HydrexFi.dexKey this) (toLowerCase (top_id pool))
    [mkConnector (toLowerCase (top_token_id (connector pool)))
                 (top_decimals (connector pool))]
    (top_liquidityUSD pool).

(** [_.sortBy(l, [key])] of lodash: a stable sort by ascending key. *)
Definition sortBy {A} (key : A -> Q) (l : list A) : list A :=
  sort (fun a b => (key a - key b)%Q) l.

(** [getTopPoolsForToken]; [_.slice(l, 0, limit)] is [firstn limit l]. *)
Definition getTopPoolsForToken (this : HydrexFi.t)
    (request : string -> nat -> Res TopResponse) (tokenAddress : string)
    (limit : nat) : Eff (list PoolLiquidity) :=
  let _tokenAddress := toLowerCase tokenAddress in
  res <- _querySubgraph this request _tokenAddress limit ;;
  match res with
  | Some (mkTopData (Some res_pools0) (Some res_pools1)) =>
      let pools0 := map (liquidity_of this top_token1) res_pools0 in
      let pools1 := map (liquidity_of this top_token0) res_pools1 in
      let pools :=
        firstn limit
               (sortBy (fun pool => (-1 * liquidityUSD pool)%Q)
                       (pools0 ++ pools1)) in
      ret pools
  | _ =>
      log LvError
        ("Error_" ++ HydrexFi.dexKey this
           ++ "_Subgraph: couldn't fetch the pools from the subgraph")%string ;;;
      ret []
  end.

End Dex.

(* ================================================================== *)
(** ** Vocabulary of the statements *)
(* ================================================================== *)

(** The pools of TVL [t]. *)
Definition tvl_is (t : Q) (p : Pool) : bool := Qeq_bool (tvlUSD p) t.

(** Descending TVL order. *)
Definition descending : list Pool -> Prop :=
  StronglySorted (fun a b => (tvlUSD b <= tvlUSD a)%Q).

(** The spacing of the sampled indices: floor((len - 1) / chunksCount). *)
Definition stride (chunksCount : nat) (amounts : list Z) : nat :=
  (List.length amounts - 1) / chunksCount.

(** The unit volume and the requested amounts at indices [stride],
    [2 * stride], ..., [chunksCount * stride]. *)
Definition sampleAmounts (chunksCount : nat) (unitVolume : Z)
    (amounts : list Z) : list Z :=
  unitVolume
    :: map (fun i => nth ((i + 1) * stride chunksCount amounts) amounts 0)
           (seq 0 chunksCount).

Definition unitVolumeOf (from to : Token) (side : SwapSide) : Z :=
  getBigIntPow (decimals (if SwapSide_eqb side SELL then from else to)).

(** The samples as quoted: shrunk by the source-side fee when it applies. *)
Definition quotedAmounts (U : Utils) (fees : TransferFeeParams)
    (side : SwapSide) (samples : list Z) : list Z :=
  if isSrcTokenTransferFeeToBeExchanged U fees
  then applyTransferFee U samples side (srcDexFee fees)
                        (SRC_TOKEN_DEX_TRANSFERS U)
  else samples.

(** The quote calls of one pool, and the batch over all pools. *)
Definition callsFor (this : HydrexFi.t) (U : Utils) (from to : Token)
    (side : SwapSide) (quoted : list Z) (pool : Pool) : list MultiCallParams :=
  map (fun amount =>
         HydrexFi.getMultiCallData this U (address from) (address to)
                                   (deployer pool) amount
                                   (SwapSide_eqb side SELL))
      quoted.

Definition quoteBatch (this : HydrexFi.t) (U : Utils) (from to : Token)
    (side : SwapSide) (quoted : list Z) (pools : list Pool)
  : list MultiCallParams :=
  flat_map (callsFor this U from to side quoted) pools.

Definition everyCallFailed (results : list MultiResult) : bool :=
  forallb (fun r => negb (success r)) results.

(** The answers to the calls of the pool at [poolIndex]. *)
Definition answersFor (results : list MultiResult) (perPool poolIndex : nat)
  : list MultiResult :=
  firstn perPool (skipn (poolIndex * perPool) results).

(** The rate taken for a sample from its answer. *)
Definition rateOf (allFailed isSELL : bool) (sample : Z * MultiResult) : Z :=
  let (a, r) := sample in
  if success r then returnData r
  else if allFailed then HydrexFi.getMockPriceForTesting a isSELL
  else 0.

(** The rates as interpolated: shrunk by the destination-side fee when it
    applies. *)
Definition ratesWithFee (U : Utils) (fees : TransferFeeParams)
    (side : SwapSide) (rates : list Z) : list Z :=
  if isDestTokenTransferFeeToBeExchanged U fees
  then applyTransferFee U rates side (destDexFee fees)
                        (DEST_TOKEN_DEX_TRANSFERS U)
  else rates.

(** The entry [getPricingFromRpc] builds for a pool from the rates of its
    samples. *)
Definition pricesFrom (this : HydrexFi.t) (U : Utils) (from to : Token)
    (amounts : list Z) (side : SwapSide) (fees : TransferFeeParams)
    (samples rates : list Z) (pool : Pool) : PoolPrices :=
  mkPoolPrices
    (interpolate U (tl samples) (tl (ratesWithFee U fees side rates)) amounts side)
    (hd 0 (ratesWithFee U fees side rates))
    (mkData [mkPathStep (address from) (address to) (deployer pool)]
            (isSrcTokenTransferFeeToBeExchanged U fees))
    [HydrexFi.getPoolIdentifier this (token0 pool) (token1 pool) (deployer pool)]
    (HydrexFi.dexKey this) (HYDREX_FI_GAS_COST U) [poolAddress pool].

(** The log lines of one run of [getPricingFromRpc] that reaches the reader. *)
Definition samplerLogs (pools : list Pool) (results : list MultiResult)
  : list (Level * string) :=
  (LvWarn,
   ("fallback to rpc for " ++ HydrexFi.show_nat (List.length pools)
      ++ " pool(s)")%string)
    :: (if everyCallFailed results
        then [(LvWarn, "All quoter calls failed, using mock pricing for testing")]
        else []).

(* ================================================================== *)
(** ** Concrete collaborators and inputs used by the examples *)
(* ================================================================== *)
Module Examples.

Definition zero_address : string := "0x0000000000000000000000000000000000000000".

Definition WETH : Token :=
  mkToken "0x4200000000000000000000000000000000000006" 18 (Some "WETH").
Definition USDC : Token :=
  mkToken "0x833589fCD6eDb6E08f4c7C32D4f71b54bdA02913" 6 (Some "USDC").

Definition noFees : TransferFeeParams := mkFees 0 0 0 0.

(** Utilities: fees in basis points, and the interpolation the design asks
    for. *)
Definition utils : Utils :=
  mkUtils zero_address 1 1 200000 200000
          (fun fees => negb (srcFee fees =? 0) || negb (srcDexFee fees =? 0))
          (fun fees => negb (destFee fees =? 0) || negb (destDexFee fees =? 0))
          (fun side fee n a => Z.quot (a * (10000 - fee)) 10000)
          spec_interpolate.

(** A remote reader whose every quote call fails. *)
Definition allFail (calls : list MultiCallParams) : list MultiResult :=
  map (fun _ => mkResult false 0) calls.

(** A remote reader that quotes half the amount and fails on amounts above
    [limit]. *)
Definition halves (limit : Z) (calls : list MultiCallParams)
  : list MultiResult :=
  map (fun c =>
         let a := amount (callData c) in
         if a <=? limit then mkResult true (a / 2) else mkResult false 0)
      calls.

(** A subgraph that answers every page with the error [msg]. *)
Definition failingSubgraph (msg : string) (q : SubgraphQuery)
  : Res SubgraphResponse :=
  Ok (mkResponse (Some [msg]) None).

Definition helper (reader : list MultiCallParams -> list MultiResult)
    (subgraph : SubgraphQuery -> Res SubgraphResponse) : DexHelper :=
  mkDexHelper (fun token => token) (fun a => a)
              (fun _ calls => Ok (reader calls)) subgraph.

(** The decoder met by the log of the unit test: topic [0x1234] matches no
    event of the ABI and [parseLog] throws. *)
Definition noMatch (log : Log) : Res LogDescription :=
  Throw (ErrorMsg "no matching event").

Definition mockLog : Log :=
  mkLog "0x1234567890123456789012345678901234567890" ["0x1234"] "0x" 18000000.

Definition otherPool : Pool :=
  mkPool "0x00000000000000000000000000000000000000aa"
         "0x4200000000000000000000000000000000000006"
         "0x833589fcd6edb6e08f4c7c32d4f71b54bda02913"
         zero_address (5 # 1).

Definition factoryWith (decoder : Log -> Res LogDescription)
    (ps : list Pool) : Factory.t :=
  Factory.mk "HydrexFi" decoder ps.

Definition dex (ps : list Pool) : HydrexFi.t :=
  HydrexFi.mk "HydrexFi" HydrexFi.HydrexFiConfig (factoryWith noMatch ps).

Definition w0 : W := mkWorld [] [].

(** The eleven amounts 0, 1e18, ..., 10e18 of the pricing tests. *)
Definition amounts11 : list Z :=
  map (fun k => Z.of_nat k * 10 ^ 18) (seq 0 11).

Definition base : DexHelper := helper allFail (failingSubgraph "boom").

(** Eleven amounts with a second zero behind the leading one. *)
Definition amountsTwoZeros : list Z := 0 :: 0 :: skipn 2 amounts11.

(** A subgraph that has not indexed the pinned block yet and answers one pool
    at its latest block. *)
Definition rawPool : RawPool :=
  mkRawPool "0x82DBE18346A8656DBB5E76F74BF3AE279CC16B29" zero_address
            (Some (283410973 # 1000))
            "0x4200000000000000000000000000000000000006"
            "0x833589fCD6eDb6E08f4c7C32D4f71b54bdA02913".

Definition lateSubgraph (q : SubgraphQuery) : Res SubgraphResponse :=
  match query_block q with
  | Some _ =>
      Ok (mkResponse
            (Some ["Failed to decode block.number value: missing block: 100"])
            None)
  | None => Ok (mkResponse None (Some [rawPool]))
  end.

Definition state0 : PoolState :=
  mkPoolState 79228162514264337593543950336 1000 5 0 0 None None None.

(** A Swap whose price moved and whose tick is 0. *)
Definition swapToTickZero : LogDescription :=
  mkEvent "Swap" (mkArgs (Some "79228162514264337593543950000") (Some 0)
                         None None None None None).

(** A Burn of 1500 units of liquidity. *)
Definition burn1500 : LogDescription :=
  mkEvent "Burn" (mkArgs None None (Some "1500") None None None None).

End Examples.

(* ================================================================== *)
(** ** Further vocabulary and inputs *)
(* ================================================================== *)

(** A string [toLowerCase] leaves as it is. *)
Definition lowercase (s : string) : Prop := toLowerCase s = s.

(** A pool as the registry stores it: address and tokens in lower case. *)
Definition canonical (p : Pool) : Prop :=
  lowercase (poolAddress p) /\ lowercase (token0 p) /\ lowercase (token1 p).

(** The error messages [queryOnePageForAllAvailablePoolsFromSubgraph] takes
    for "block not indexed yet". *)
Definition blockUnavailable (m : string) : bool :=
  includes m "missing block" || includes m "not yet available".

(** An answer of the subgraph without errors. *)
Definition noErrors (res : SubgraphResponse) : Prop :=
  errors res = None \/ errors res = Some [].

(** The pools of the pages [0 .. k] in page order. *)
Definition pagesUpTo (pages : nat -> list RawPool) (k : nat) : list Pool :=
  concat (map (fun i => map Factory.pool_of_raw (pages i)) (seq 0 (S k))).

(** The pool a creation event stands for. *)
Definition createdPool (poolAddress t0 t1 dep : string) : Pool :=
  mkPool (toLowerCase poolAddress) (toLowerCase t0) (toLowerCase t1) dep 0%Q.

(** The addresses [_encodePath] hands to [pack]: the first hop's [tokenIn],
    then the deployer and [tokenOut] of every hop. *)
Definition pathAddresses (path : list PathStep) : list string :=
  match path with
  | [] => []
  | first :: _ =>
      tokenIn first
        :: flat_map (fun hop => [step_deployer hop; tokenOut hop]) path
  end.

(** Descending liquidity. *)
Definition byLiquidity : list Dex.PoolLiquidity -> Prop :=
  StronglySorted
    (fun a b => (Dex.liquidityUSD b <= Dex.liquidityUSD a)%Q).

(** A call as [getMultiCallData] builds it for a quote of [from] against [to]
    on one of [pools]: addressed to the configured quoter, with the quote gas
    limit, the function of the side and price limit 0. *)
Definition quoteCallOf (this : HydrexFi.t) (U : Utils) (from to : Token)
    (side : SwapSide) (pools : list Pool) (c : MultiCallParams) : Prop :=
  target c = quoter (HydrexFi.config this)
  /\ gasLimit c = HYDREX_FI_QUOTE_GASLIMIT U
  /\ fn (callData c)
     = (match side with
        | SELL => "quoteExactInputSingle"
        | BUY => "quoteExactOutputSingle"
        end)
  /\ call_from (callData c) = address from
  /\ call_to (callData c) = address to
  /\ limitSqrtPrice (callData c) = 0
  /\ exists pool, In pool pools /\ call_deployer (callData c) = deployer pool.

Module Inputs.

(** A subgraph that serves the pages of [pages] by their [skip], without
    errors. *)
Definition paged (pages : nat -> list RawPool) (q : SubgraphQuery)
  : Res SubgraphResponse :=
  Ok (mkResponse None
        (Some (pages (Z.to_nat (query_skip q / Factory.defaultPerPageLimit))))).

Definition rawNumbered (i : nat) : RawPool :=
  mkRawPool ("0xPOOL" ++ HydrexFi.show_nat i) Examples.zero_address
            (Some (Z.of_nat i # 1))
            "0x4200000000000000000000000000000000000006"
            "0x833589fCD6eDb6E08f4c7C32D4f71b54bdA02913".

(** One full page of a thousand pools, then a page of two. *)
Definition twoPages (i : nat) : list RawPool :=
  match i with
  | O => map rawNumbered (seq 0 1000)
  | 1%nat => [rawNumbered 1000; rawNumbered 1001]
  | _ => []
  end.

(** A subgraph whose first page is full and whose every later page is the
    error [msg]. *)
Definition breaksAfterFirstPage (msg : string) (q : SubgraphQuery)
  : Res SubgraphResponse :=
  if query_skip q =? 0
  then Ok (mkResponse None (Some (twoPages 0)))
  else Ok (mkResponse (Some [msg]) None).

Definition DAI : Token :=
  mkToken "0x50c5725949A6F0c72E6C4a641F24049A917DB0Cb" 18 (Some "DAI").

(** The decoder of a factory that saw one pool being created. *)
Definition poolCreated (log : Log) : Res LogDescription :=
  Ok (mkEvent "Pool"
        (mkArgs None None None
                (Some "0x4200000000000000000000000000000000000006")
                (Some "0x833589fCD6eDb6E08f4c7C32D4f71b54bdA02913")
                None
                (Some "0x82DBE18346A8656DBB5E76F74BF3AE279CC16B29"))).

Definition customPoolCreated (log : Log) : Res LogDescription :=
  Ok (mkEvent "CustomPool"
        (mkArgs None None None
                (Some "0x4200000000000000000000000000000000000006")
                (Some "0x833589fCD6eDb6E08f4c7C32D4f71b54bdA02913")
                (Some "0x00000000000000000000000000000000000000DD")
                (Some "0x82DBE18346A8656DBB5E76F74BF3AE279CC16B29"))).

(** A Mint of 250 units of liquidity and a Swap to tick -12. *)
Definition mint250 : LogDescription :=
  mkEvent "Mint" (mkArgs None None (Some "250") None None None None).

Definition swapToTickMinus12 : LogDescription :=
  mkEvent "Swap" (mkArgs (Some "79228162514264337593543950000") (Some (-12))
                         None None None None None).

Definition hop (a d b : string) : PathStep := mkPathStep a b d.

(** [pack] as the concatenation of the values, for reading the examples. *)
Definition joinPack (types values : list string) : Res string :=
  Ok (join "," values).

Definition topPool (id : string) (liq : Q) : Dex.TopPool :=
  Dex.mkTopPool id
    (Dex.mkTopToken "0x4200000000000000000000000000000000000006" (Some 18))
    (Dex.mkTopToken "0x833589fCD6eDb6E08f4c7C32D4f71b54bdA02913" (Some 6))
    liq.

Definition topAnswer (token : string) (count : nat) : Res Dex.TopResponse :=
  Ok (Dex.mkTopResponse
        (Some (Dex.mkTopData
                 (Some [topPool "0xA" (7 # 1); topPool "0xB" (9 # 1)])
                 (Some [topPool "0xC" (8 # 1)])))).

Definition topDown (token : string) (count : nat) : Res Dex.TopResponse :=
  Throw (ErrorMsg "connect ECONNREFUSED").

End Inputs.

(* ================================================================== *)
(** * Properties *)
(* ================================================================== *)

(** ** Exceptions and the world *)

Lemma mapR_total {A B} (f : A -> Res B) (g : A -> B) (l : list A) :
  (forall x, In x l -> f x = Ok (g x)) -> mapR f l = Ok (map g l).
Proof.
  induction l as [|x r IH]; intros Hf; simpl.
  - reflexivity.
  - rewrite (Hf x (or_introl eq_refl)); simpl.
    rewrite IH by (intros y Hy; apply Hf; now right).
    reflexivity.
Qed.

(** ** Token order and the pool identifier *)

Lemma sortTokens_cases (a b : string) :
  HydrexFi._sortTokens a b = if String.ltb b a then [b; a] else [a; b].
Proof.
  unfold HydrexFi._sortTokens, sort; simpl.
  destruct (String.ltb b a); reflexivity.
Qed.

Lemma sortTokens_sym (a b : string) :
  HydrexFi._sortTokens a b = HydrexFi._sortTokens b a.
Proof.
  rewrite !sortTokens_cases; unfold String.ltb.
  destruct (String.compare a b) eqn:E.
  - apply String.compare_eq_iff in E; subst.
    now destruct (String.compare b b).
  - rewrite String.compare_antisym, E; reflexivity.
  - rewrite String.compare_antisym, E; reflexivity.
Qed.

(** ** Sorting by TVL *)

Lemma by_tvl_neg (pivot x : Pool) :
  Qneg (Factory.by_tvl pivot x) = true <-> (tvlUSD x < tvlUSD pivot)%Q.
Proof.
  unfold Factory.by_tvl, Qneg.
  destruct (Qeq_bool (tvlUSD x - tvlUSD pivot) 0) eqn:E; simpl.
  - apply Qeq_bool_iff in E.
    split; [intros F; vm_compute in F; discriminate | intros; exfalso; lra].
  - apply Qeq_bool_neq in E.
    destruct (Qle_bool 0 (tvlUSD x - tvlUSD pivot)) eqn:L; simpl.
    + apply Qle_bool_iff in L. split; [discriminate | intros; exfalso; lra].
    + split; [intros _ | reflexivity].
      destruct (Qlt_le_dec (tvlUSD x) (tvlUSD pivot)) as [|G]; [assumption|].
      assert (Qle_bool 0 (tvlUSD x - tvlUSD pivot) = true)
        by (apply Qle_bool_iff; lra).
      congruence.
Qed.

Lemma by_tvl_not_neg (pivot x : Pool) :
  Qneg (Factory.by_tvl pivot x) = false -> (tvlUSD pivot <= tvlUSD x)%Q.
Proof.
  intros E. destruct (Qlt_le_dec (tvlUSD x) (tvlUSD pivot)) as [L|]; [|assumption].
  apply by_tvl_neg in L; congruence.
Qed.

Lemma sort_insert_perm {A} (c : A -> A -> Q) (p : A) (l : list A) :
  Permutation (sort_insert c p l) (p :: l).
Proof.
  induction l as [|x r IH]; simpl.
  - reflexivity.
  - destruct (Qneg (c p x)).
    + reflexivity.
    + rewrite IH. apply perm_swap.
Qed.

Lemma sort_fold_perm {A} (c : A -> A -> Q) (l acc : list A) :
  Permutation (fold_left (fun s p => sort_insert c p s) l acc) (acc ++ l).
Proof.
  revert acc; induction l as [|x r IH]; intros acc; simpl.
  - rewrite app_nil_r; reflexivity.
  - rewrite IH, sort_insert_perm.
    change (x :: acc) with ([x] ++ acc).
    rewrite (Permutation_app_comm [x] acc), <- app_assoc; reflexivity.
Qed.

Lemma sort_perm {A} (c : A -> A -> Q) (l : list A) :
  Permutation (sort c l) l.
Proof. unfold sort. now rewrite sort_fold_perm. Qed.

Lemma sort_insert_descending (p : Pool) (l : list Pool) :
  descending l -> descending (sort_insert Factory.by_tvl p l).
Proof.
  unfold descending.
  induction l as [|x r IH]; intros Hl; simpl.
  - constructor; constructor.
  - inversion Hl as [|? ? Hr Hx]; subst.
    destruct (Qneg (Factory.by_tvl p x)) eqn:E.
    + apply by_tvl_neg in E.
      constructor; [assumption|].
      constructor; [lra|].
      eapply Forall_impl; [|exact Hx]. simpl; intros b Hb; lra.
    + apply by_tvl_not_neg in E.
      constructor; [now apply IH|].
      eapply Permutation_Forall;
        [symmetry; apply sort_insert_perm|].
      constructor; assumption.
Qed.

Lemma sort_fold_descending (l acc : list Pool) :
  descending acc ->
  descending (fold_left (fun s p => sort_insert Factory.by_tvl p s) l acc).
Proof.
  revert acc; induction l as [|x r IH]; intros acc Hacc; simpl.
  - assumption.
  - apply IH, sort_insert_descending, Hacc.
Qed.

Lemma descending_below (t : Q) (l : list Pool) :
  descending l ->
  (forall x, In x l -> (tvlUSD x < t)%Q) ->
  filter (tvl_is t) l = [].
Proof.
  intros _ Hlt. induction l as [|x r IH]; simpl; [reflexivity|].
  unfold tvl_is at 1.
  destruct (Qeq_bool (tvlUSD x) t) eqn:E.
  - apply Qeq_bool_iff in E. specialize (Hlt x (or_introl eq_refl)). lra.
  - apply IH. intros y Hy. apply Hlt. now right.
Qed.

(** The pivot lands behind the pools of its own TVL. *)
Lemma sort_insert_stable (t : Q) (p : Pool) (l : list Pool) :
  descending l ->
  filter (tvl_is t) (sort_insert Factory.by_tvl p l)
  = filter (tvl_is t) l ++ filter (tvl_is t) [p].
Proof.
  induction l as [|x r IH]; intros Hl; simpl.
  - reflexivity.
  - inversion Hl as [|? ? Hr Hx]; subst.
    destruct (Qneg (Factory.by_tvl p x)) eqn:E.
    + apply by_tvl_neg in E.
      change (filter (tvl_is t) (p :: x :: r))
        with (filter (tvl_is t) ([p] ++ (x :: r))).
      rewrite filter_app.
      destruct (tvl_is t p) eqn:Ep.
      * unfold tvl_is in Ep. apply Qeq_bool_iff in Ep.
        assert (Hnil : filter (tvl_is t) (x :: r) = []).
        { apply descending_below; [exact Hl|].
          intros y [<-|Hy]; [lra|].
          rewrite Forall_forall in Hx. specialize (Hx y Hy). simpl in Hx. lra. }
        simpl in Hnil |- *. rewrite Hnil. unfold tvl_is at 1.
        rewrite (proj2 (Qeq_bool_iff _ _) Ep). reflexivity.
      * simpl. rewrite Ep. simpl. rewrite app_nil_r. reflexivity.
    + simpl. destruct (tvl_is t x); rewrite (IH Hr); reflexivity.
Qed.

Lemma sort_fold_stable (t : Q) (l acc : list Pool) :
  descending acc ->
  filter (tvl_is t) (fold_left (fun s p => sort_insert Factory.by_tvl p s) l acc)
  = filter (tvl_is t) acc ++ filter (tvl_is t) l.
Proof.
  revert acc; induction l as [|x r IH]; intros acc Hacc; simpl filter at 3.
  - simpl. now rewrite app_nil_r.
  - simpl fold_left.
    rewrite IH by now apply sort_insert_descending.
    rewrite sort_insert_stable by assumption.
    rewrite <- app_assoc. f_equal.
    simpl. now destruct (tvl_is t x).
Qed.

(** ** The pool registry *)

Lemma pair_matches_iff (a b : string) (p : Pool) :
  Factory.pair_matches a b p = true
  <-> (token0 p = a /\ token1 p = b) \/ (token0 p = b /\ token1 p = a).
Proof.
  unfold Factory.pair_matches.
  rewrite orb_true_iff, !andb_true_iff, !String.eqb_eq. reflexivity.
Qed.

(** C5: [getAvailablePoolsForPair] returns exactly the stored pools whose
    token pair is the requested one (addresses wrapped and lowered, as the
    function does) in either orientation, in descending TVL order, pools of
    equal TVL in their stored order; the answer depends on the stored pools
    only, so a second call with the same pools returns the same list. *)
Theorem C5_getAvailablePoolsForPair_sorted_stable
    (H : DexHelper) (f : Factory.t) (tokenA tokenB : string) (blockHeight : Z) :
  let a := toLowerCase (wrapETH_address H tokenA) in
  let b := toLowerCase (wrapETH_address H tokenB) in
  let known := filter (Factory.pair_matches a b) (Factory.pools f) in
  let found := Factory.getAvailablePoolsForPair H f tokenA tokenB blockHeight in
  Permutation found known
  /\ (forall p, In p found <->
        In p (Factory.pools f)
        /\ ((token0 p = a /\ token1 p = b) \/ (token0 p = b /\ token1 p = a)))
  /\ descending found
  /\ (forall t, filter (tvl_is t) found = filter (tvl_is t) known)
  /\ (forall f' blockHeight',
        Factory.pools f' = Factory.pools f ->
        Factory.getAvailablePoolsForPair H f' tokenA tokenB blockHeight' = found).
Proof.
  intros a b known found.
  assert (HP : Permutation found known) by apply sort_perm.
  split; [exact HP|]. split; [|split; [|split]].
  - intros p. split.
    + intros Hin. apply (Permutation_in _ HP), filter_In in Hin.
      split; [tauto | now apply pair_matches_iff].
    + intros [Hin Hm]. apply (Permutation_in _ (Permutation_sym HP)), filter_In.
      split; [assumption | now apply pair_matches_iff].
  - apply sort_fold_descending. constructor.
  - intros t. unfold found, Factory.getAvailablePoolsForPair, sort.
    rewrite sort_fold_stable by constructor. reflexivity.
  - intros f' bh' E. unfold found, Factory.getAvailablePoolsForPair.
    now rewrite E.
Qed.

Lemma queryOnePage_remote_error (fuel : nat) (H : DexHelper) (f : Factory.t)
    (blockNumber skip limit : Z) (latest : bool) (res : SubgraphResponse)
    (m : string) (rest : list string) (w : W) :
  querySubgraph H (mkQuery (if latest then None else Some blockNumber) skip limit)
  = Ok res ->
  errors res = Some (m :: rest) ->
  includes m "missing block" || includes m "not yet available" = false ->
  Factory.queryOnePageForAllAvailablePoolsFromSubgraph
    (S fuel) H f blockNumber skip limit latest w
  = (w, Throw (ErrorMsg m)).
Proof.
  intros Hq He Hm. simpl. unfold bind, lift.
  rewrite Hq, He, Hm. reflexivity.
Qed.

Lemma queryAll_first_page_error (fuel : nat) (H : DexHelper) (f : Factory.t)
    (blockNumber : Z) (res : SubgraphResponse) (m : string)
    (rest : list string) (w : W) :
  querySubgraph H (mkQuery (Some blockNumber) 0 Factory.defaultPerPageLimit)
  = Ok res ->
  errors res = Some (m :: rest) ->
  includes m "missing block" || includes m "not yet available" = false ->
  Factory.queryAllAvailablePools (S fuel) H f blockNumber w
  = (w, Throw (ErrorMsg m)).
Proof.
  intros Hq He Hm. unfold Factory.queryAllAvailablePools, Factory.bindF, bind.
  rewrite (queryOnePage_remote_error fuel H f blockNumber 0
             Factory.defaultPerPageLimit false res m rest w Hq He Hm).
  reflexivity.
Qed.

(** The block-unavailability error is not a failure: the page is asked again
    at the latest block, the degradation is logged, and the pools found there
    are stored. *)
Example initialize_falls_back_to_latest_block :
  Factory.initialize 3
    (Examples.helper Examples.allFail Examples.lateSubgraph) Examples.utils
    (Examples.factoryWith Examples.noMatch [Examples.otherPool]) 100
    Examples.w0
  = (mkWorld [(LvInfo, "HydrexFi: subgraph fallback to the latest block...")] [],
     Ok (Some (Factory.set_pools
                 (Examples.factoryWith Examples.noMatch [Examples.otherPool])
                 [Factory.pool_of_raw Examples.rawPool]))).
Proof. reflexivity. Qed.

(** C4 (amended): when the bulk load throws, whatever the page and the error,
    [initialize] catches it, logs a warning and installs the fixed mock pool
    set; nothing of the pages fetched so far is stored, and the pools held
    before are not kept. *)
Theorem C4_initialize_failure_installs_mock_pools
    (fuel : nat) (H : DexHelper) (U : Utils) (f : Factory.t) (blockHeight : Z)
    (w w1 : W) (e : Error) :
  Factory.queryAllAvailablePools fuel H f blockHeight w = (w1, Throw e) ->
  Factory.initialize fuel H U f blockHeight w
  = (mkWorld
       (w_logs w1
          ++ [(LvWarn,
               ("Failed to query subgraph, using mock pools for testing: "
                  ++ message e)%string)])
       (w_batches w1),
     Ok (Some (Factory.set_pools f (Factory.getMockPoolsForTesting U)))).
Proof.
  intros Hq. unfold Factory.initialize, try_catch, Factory.bindF, bind.
  rewrite Hq. reflexivity.
Qed.

Lemma C4_initialize_failure_witness :
  Factory.pools
    (Factory.set_pools (Examples.factoryWith Examples.noMatch [Examples.otherPool])
                       (Factory.getMockPoolsForTesting Examples.utils))
  = Factory.getMockPoolsForTesting Examples.utils
  /\ Factory.initialize 3
       (Examples.helper Examples.allFail (Examples.failingSubgraph "boom"))
       Examples.utils
       (Examples.factoryWith Examples.noMatch [Examples.otherPool]) 100
       Examples.w0
     = (mkWorld
          [(LvWarn,
            "Failed to query subgraph, using mock pools for testing: boom")]
          [],
        Ok (Some (Factory.set_pools
                    (Examples.factoryWith Examples.noMatch [Examples.otherPool])
                    (Factory.getMockPoolsForTesting Examples.utils)))).
Proof.
  split; [reflexivity|].
  apply (C4_initialize_failure_installs_mock_pools 3
           (Examples.helper Examples.allFail (Examples.failingSubgraph "boom"))
           Examples.utils
           (Examples.factoryWith Examples.noMatch [Examples.otherPool]) 100
           Examples.w0 Examples.w0 (ErrorMsg "boom")).
  reflexivity.
Defined.

(** C4, as stated, fails: the registry holds [otherPool], the subgraph answers
    the first page with the error "boom" (not a block-unavailability message),
    and after [initialize] the registry holds the three mock pools instead. *)
Lemma C4_prior_pools_overwritten :
  includes "boom" "missing block" || includes "boom" "not yet available" = false
  /\ exists w' f',
       Factory.initialize 3
         (Examples.helper Examples.allFail (Examples.failingSubgraph "boom"))
         Examples.utils
         (Examples.factoryWith Examples.noMatch [Examples.otherPool]) 100
         Examples.w0
       = (w', Ok (Some f'))
       /\ Factory.pools f'
          <> Factory.pools
               (Examples.factoryWith Examples.noMatch [Examples.otherPool]).
Proof.
  split; [reflexivity|].
  eexists; eexists; split; [vm_compute; reflexivity|].
  intros E. apply (f_equal (@List.length Pool)) in E. discriminate E.
Qed.

(** ** The pool-state subscriber *)

Lemma handleSwap_keeps_liquidity_and_fees
    (event : LogDescription) (state : PoolState) (log : Log) :
  exists state',
    EventPool.handleSwap event state log = Some state'
    /\ liquidity state' = liquidity state
    /\ feeGrowthGlobal0X128 state' = feeGrowthGlobal0X128 state
    /\ feeGrowthGlobal1X128 state' = feeGrowthGlobal1X128 state.
Proof.
  unfold EventPool.handleSwap.
  destruct (EventPool.bigint_or_prior _ _) as [price|e]; simpl;
    eexists; repeat split; reflexivity.
Qed.

(** X24: a Swap whose payload carries a price and a tick other than zero
    stores both; every other field of the state is kept. *)
Lemma handleSwap_overwrites_nonzero_tick
    (event : LogDescription) (state : PoolState) (log : Log) (text : string)
    (price newTick : Z) :
  arg_sqrtPriceX96 (args event) = Some text ->
  text <> EmptyString ->
  BigInt text = Ok price ->
  arg_tick (args event) = Some newTick ->
  newTick <> 0 ->
  EventPool.handleSwap event state log
  = Some (EventPool.set_price_tick state price newTick).
Proof.
  intros Hs Hne Hb Ht Hz. unfold EventPool.handleSwap.
  rewrite Hs, Ht. destruct text as [|c r]; [congruence|]. simpl.
  rewrite Hb. simpl. unfold EventPool.number_or_prior.
  destruct (Z.eqb_spec newTick 0); [contradiction | reflexivity].
Qed.

(** C8, at the failing input: the pool is at tick 5 and a Swap carries a new
    price and tick 0.  [handleSwap] stores the price and keeps tick 5: the
    payload's tick 0 is taken for a missing one. *)
Theorem C8_handleSwap_tick_zero_not_stored :
  arg_tick (args Examples.swapToTickZero) = Some 0
  /\ tick Examples.state0 = 5
  /\ exists state',
       EventPool.handleSwap Examples.swapToTickZero Examples.state0
                            Examples.mockLog
       = Some state'
       /\ sqrtPriceX96 state' = 79228162514264337593543950000
       /\ tick state' = 5
       /\ liquidity state' = liquidity Examples.state0.
Proof.
  split; [reflexivity|]. split; [reflexivity|].
  eexists; split; [vm_compute; reflexivity|].
  repeat split.
Qed.

(** C9: [handleBurn] stores the prior liquidity minus the event's delta
    ([BigInt(event.args.liquidity?.toString() || '0')]) by plain integer
    subtraction and touches nothing else; there is no clamp, so the stored
    liquidity is negative whenever the delta exceeds the prior liquidity. *)
Theorem C9_handleBurn_exact_subtraction
    (event : LogDescription) (state : PoolState) (log : Log) (delta : Z) :
  EventPool.bigint_or_zero (arg_liquidity (args event)) = Ok delta ->
  exists state',
    EventPool.handleBurn event state log = Some state'
    /\ liquidity state' = liquidity state - delta
    /\ (liquidity state < delta -> liquidity state' < 0)
    /\ sqrtPriceX96 state' = sqrtPriceX96 state
    /\ tick state' = tick state
    /\ feeGrowthGlobal0X128 state' = feeGrowthGlobal0X128 state
    /\ feeGrowthGlobal1X128 state' = feeGrowthGlobal1X128 state.
Proof.
  intros Hd. unfold EventPool.handleBurn. rewrite Hd. simpl.
  eexists; split; [reflexivity|]. simpl. repeat split; lia.
Qed.

Lemma C9_handleBurn_witness :
  exists state',
    EventPool.handleBurn Examples.burn1500 Examples.state0 Examples.mockLog
    = Some state'
    /\ liquidity state' = liquidity Examples.state0 - 1500
    /\ (liquidity Examples.state0 < 1500 -> liquidity state' < 0)
    /\ sqrtPriceX96 state' = sqrtPriceX96 Examples.state0
    /\ tick state' = tick Examples.state0
    /\ feeGrowthGlobal0X128 state' = feeGrowthGlobal0X128 Examples.state0
    /\ feeGrowthGlobal1X128 state' = feeGrowthGlobal1X128 Examples.state0.
Proof.
  apply (C9_handleBurn_exact_subtraction Examples.burn1500 Examples.state0
           Examples.mockLog 1500).
  vm_compute; reflexivity.
Defined.

(** The pool subscriber's [processLog] never throws; a log the decoder
    rejects is logged and yields [null], and so does an event no handler is
    registered for. *)
Lemma EventPool_processLog_returns
    (p : EventPool.t) (state : PoolState) (log : Log) (w : W) :
  exists w' r,
    EventPool.processLog p state log w = (w', Ok r)
    /\ (forall e, EventPool.logDecoder p log = Throw e ->
          r = None
          /\ w_logs w' = w_logs w
                         ++ [(LvError, ("Failed to parse log: " ++ message e)%string)])
    /\ (forall event, EventPool.logDecoder p log = Ok event ->
          handler_of (name event) EventPool.handlers = None ->
          r = None /\ w' = w).
Proof.
  unfold EventPool.processLog, bind, try_catch, lift, catchParseLogError, Js.log, ret.
  destruct (EventPool.logDecoder p log) as [event|e].
  - destruct (handler_of (name event) EventPool.handlers) as [h|] eqn:Eh.
    + eexists; eexists; split; [reflexivity|].
      split; [discriminate|]. intros ev Ev Hn. injection Ev as <-. congruence.
    + eexists; eexists; split; [reflexivity|].
      split; [discriminate|]. intros; split; reflexivity.
  - eexists; eexists; split; [reflexivity|].
    split; [|discriminate]. intros e' E. injection E as <-. split; reflexivity.
Qed.

(** The factory subscriber's [processLog] has no handler around the decoder:
    what the decoder throws, it throws. *)
Lemma Factory_processLog_decode_error
    (U : Utils) (f : Factory.t) (state : FactoryState) (log : Log) (e : Error)
    (w : W) :
  Factory.logDecoder f log = Throw e ->
  Factory.processLog U f state log w = (w, Throw e).
Proof.
  intros Hd. unfold Factory.processLog, bind, lift. now rewrite Hd.
Qed.

(** An event no factory handler is registered for changes nothing. *)
Lemma Factory_processLog_unrecognized
    (U : Utils) (f : Factory.t) (state : FactoryState) (log : Log)
    (event : LogDescription) (w : W) :
  Factory.logDecoder f log = Ok event ->
  handler_of (name event) (Factory.handlers U) = None ->
  Factory.processLog U f state log w = (w, Ok (f, tt)).
Proof.
  intros Hd Hn. unfold Factory.processLog, bind, lift, ret.
  now rewrite Hd, Hn.
Qed.

(** C7, at the failing input: the log of the unit test (topic [0x1234], which
    the decoder rejects).  The pool subscriber catches the error, logs it and
    returns [null]; the factory subscriber's [processLog] throws it on. *)
Theorem C7_factory_processLog_lets_decode_error_escape :
  EventPool.processLog (EventPool.mk "HydrexFi" Examples.noMatch [])
                       Examples.state0 Examples.mockLog Examples.w0
  = (mkWorld [(LvError, "Failed to parse log: no matching event")] [], Ok None)
  /\ Factory.processLog Examples.utils
       (Examples.factoryWith Examples.noMatch [Examples.otherPool]) tt
       Examples.mockLog Examples.w0
     = (Examples.w0, Throw (ErrorMsg "no matching event")).
Proof. split; reflexivity. Qed.

(** ** The pool identifier *)

(** C10: the identifier of a pool does not depend on the order in which the
    two token addresses are given: they are sorted before being joined. *)
Theorem C10_getPoolIdentifier_symmetric
    (this : HydrexFi.t) (a b d : string) :
  HydrexFi.getPoolIdentifier this a b d = HydrexFi.getPoolIdentifier this b a d.
Proof.
  unfold HydrexFi.getPoolIdentifier. now rewrite (sortTokens_sym a b).
Qed.

(** ** The quote sampler *)

(** *** Arrays, indices and answers *)

Lemma all_defined_map {A B} (f : A -> option B) (g : A -> B) (l : list A) :
  (forall x, In x l -> f x = Some (g x)) ->
  all_defined (map f l) = Some (map g l).
Proof.
  induction l as [|x r IH]; intros Hf; simpl.
  - reflexivity.
  - rewrite (Hf x (or_introl eq_refl)).
    rewrite IH by (intros y Hy; apply Hf; now right). reflexivity.
Qed.

Lemma skipn_nth_error_cons {A} (l : list A) (n : nat) (x : A) :
  nth_error l n = Some x -> skipn n l = x :: skipn (S n) l.
Proof.
  revert l; induction n as [|n IH]; intros [|y r]; simpl; try discriminate.
  - intros E; injection E as <-; reflexivity.
  - intros E. now apply IH.
Qed.

Lemma indexed_from_in {A} (l : list A) (s i : nat) (x : A) :
  In (i, x) (combine (seq s (List.length l)) l) ->
  (s <= i)%nat /\ nth_error l (i - s) = Some x.
Proof.
  revert s; induction l as [|y r IH]; intros s; simpl; [tauto|].
  intros [E|Hin].
  - injection E as -> ->. rewrite Nat.sub_diag. split; [lia | reflexivity].
  - apply IH in Hin. destruct Hin as [Hle Hn].
    replace (i - s)%nat with (S (i - S s)) by lia. split; [lia | exact Hn].
Qed.

Lemma indexed_in {A} (l : list A) (i : nat) (x : A) :
  In (i, x) (indexed l) -> nth_error l i = Some x.
Proof.
  intros Hin. apply indexed_from_in in Hin.
  now rewrite Nat.sub_0_r in Hin.
Qed.

Lemma indexed_from_nth {A} (l : list A) (s i : nat) (x : A) :
  nth_error l i = Some x ->
  nth_error (combine (seq s (List.length l)) l) i = Some ((s + i)%nat, x).
Proof.
  revert s i; induction l as [|y r IH]; intros s [|i]; simpl; try discriminate.
  - intros E; injection E as <-. now rewrite Nat.add_0_r.
  - intros E. rewrite (IH (S s) i E). f_equal. f_equal. lia.
Qed.

Lemma indexed_length {A} (l : list A) : List.length (indexed l) = List.length l.
Proof.
  unfold indexed. rewrite length_combine, length_seq. apply Nat.min_id.
Qed.

Lemma map_combine_left {A B C} (h : A * B -> C) (f : A -> C)
    (l1 : list A) (l2 : list B) :
  List.length l1 = List.length l2 ->
  (forall a b, In b l2 -> h (a, b) = f a) ->
  map h (combine l1 l2) = map f l1.
Proof.
  revert l2; induction l1 as [|a r IH]; intros [|b l2]; simpl;
    try discriminate; intros Hl Hh; [reflexivity|].
  rewrite Hh by now left. f_equal. apply IH; [lia|].
  intros a' b' Hb. apply Hh. now right.
Qed.

Lemma map_combine_right {A B C} (h : A * B -> C) (g : B -> C)
    (l1 : list A) (l2 : list B) :
  List.length l1 = List.length l2 ->
  (forall a b, h (a, b) = g b) ->
  map h (combine l1 l2) = map g l2.
Proof.
  revert l2; induction l1 as [|a r IH]; intros [|b l2]; simpl;
    try discriminate; intros Hl Hh; [reflexivity|].
  rewrite Hh. f_equal. apply IH; [lia | assumption].
Qed.

(** *** The sampled indices *)

Lemma sampled_index_in_range (n : nat) (amounts : list Z) (i : nat) :
  amounts <> [] -> (i < n)%nat ->
  ((i + 1) * stride n amounts < List.length amounts)%nat.
Proof.
  intros Hne Hi. unfold stride.
  assert (0 < List.length amounts)%nat
    by (destruct amounts; [congruence | simpl; lia]).
  pose proof (Nat.Div0.mul_div_le (List.length amounts - 1) n) as Hle.
  nia.
Qed.

(** On a non-empty vector every sample is defined, and the samples are the
    unit volume and the amounts at the multiples of the stride. *)
Lemma chunkAmounts_defined (n : nat) (unitVolume : Z) (amounts : list Z) :
  amounts <> [] ->
  all_defined (HydrexFi.chunkAmounts n unitVolume amounts)
  = Some (sampleAmounts n unitVolume amounts).
Proof.
  intros Hne. unfold HydrexFi.chunkAmounts, sampleAmounts.
  cbn [all_defined].
  rewrite (all_defined_map _
             (fun i => nth ((i + 1) * stride n amounts) amounts 0)).
  - reflexivity.
  - intros i Hi. apply in_seq in Hi.
    pose proof (sampled_index_in_range n amounts i Hne ltac:(lia)) as Hr.
    assert (0 < List.length amounts)%nat by lia.
    replace (Z.of_nat (List.length amounts) - 1)
      with (Z.of_nat (List.length amounts - 1)) by lia.
    rewrite <- Nat2Z.inj_div.
    replace ((Z.of_nat i + 1) * Z.of_nat ((List.length amounts - 1) / n))
      with (Z.of_nat ((i + 1) * stride n amounts)) by (unfold stride; lia).
    unfold js_get.
    destruct (Z.ltb_spec (Z.of_nat ((i + 1) * stride n amounts)) 0); [lia|].
    rewrite Nat2Z.id. now apply nth_error_nth'.
Qed.

Lemma sampleAmounts_length (n : nat) (u : Z) (amounts : list Z) :
  List.length (sampleAmounts n u amounts) = S n.
Proof. unfold sampleAmounts. simpl. now rewrite length_map, length_seq. Qed.

Lemma stride_positive (n : nat) (amounts : list Z) :
  (0 < n)%nat -> (n < List.length amounts)%nat -> (0 < stride n amounts)%nat.
Proof.
  intros Hn Hl. unfold stride. apply Nat.div_str_pos. lia.
Qed.

(** With more than [n] amounts index 0 is not sampled: if the amounts behind
    it are not zero, no sample is. *)
Lemma samples_nonzero (n : nat) (unitVolume : Z) (amounts : list Z) :
  unitVolume <> 0 ->
  (n < List.length amounts)%nat ->
  (forall k, (0 < k < List.length amounts)%nat -> nth k amounts 0 <> 0) ->
  Forall (fun v => v <> 0) (sampleAmounts n unitVolume amounts).
Proof.
  intros Hu Hl Hnz. unfold sampleAmounts. constructor; [assumption|].
  apply Forall_forall. intros v Hv. apply in_map_iff in Hv.
  destruct Hv as (i & <- & Hi). apply in_seq in Hi.
  apply Hnz. split.
  - pose proof (stride_positive n amounts ltac:(lia) Hl). nia.
  - apply sampled_index_in_range; [|lia].
    intros ->. simpl in Hl. lia.
Qed.

Lemma getBigIntPow_positive (d : nat) : 0 < getBigIntPow d.
Proof. unfold getBigIntPow. apply Z.pow_pos_nonneg; lia. Qed.

(** *** The answers of the reader *)

Lemma sample_rates_from (results : list MultiResult) (allFailed isSELL : bool)
    (offset : nat) (l : list Z) (s : nat) :
  (offset + s + List.length l <= List.length results)%nat ->
  mapR (HydrexFi.sample_rate results allFailed isSELL offset)
       (combine (seq s (List.length l)) l)
  = Ok (map (rateOf allFailed isSELL)
            (combine l (firstn (List.length l) (skipn (offset + s) results)))).
Proof.
  revert s; induction l as [|a r IH]; intros s Hlen; simpl in *.
  - reflexivity.
  - destruct (nth_error results (offset + s)) as [res|] eqn:E.
    2:{ apply nth_error_None in E. lia. }
    rewrite (skipn_nth_error_cons _ _ _ E). simpl.
    rewrite IH by lia. simpl.
    replace (offset + S s)%nat with (S (offset + s)) by lia.
    destruct (success res); [reflexivity|]. destruct allFailed; reflexivity.
Qed.

Lemma answersFor_length (results : list MultiResult) (n p : nat) :
  (S p * n <= List.length results)%nat ->
  List.length (answersFor results n p) = n.
Proof.
  intros Hl. unfold answersFor. rewrite length_firstn, length_skipn.
  simpl in Hl. lia.
Qed.

Lemma answersFor_in (results : list MultiResult) (n p : nat) (r : MultiResult) :
  In r (answersFor results n p) -> In r results.
Proof.
  unfold answersFor. intros Hin.
  rewrite <- (firstn_skipn (p * n) results). apply in_or_app. right.
  rewrite <- (firstn_skipn n (skipn (p * n) results)). apply in_or_app.
  now left.
Qed.

Lemma everyCallFailed_spec (results : list MultiResult) (r : MultiResult) :
  everyCallFailed results = true -> In r results -> success r = false.
Proof.
  unfold everyCallFailed. rewrite forallb_forall. intros Hall Hin.
  apply Hall in Hin. now apply negb_true_iff in Hin.
Qed.

Lemma spec_interpolate_zero (x y xPrime : list Z) (side : SwapSide) (k : nat) :
  nth_error xPrime k = Some 0 ->
  nth_error (spec_interpolate x y xPrime side) k = Some 0.
Proof.
  intros Hk. unfold spec_interpolate. rewrite nth_error_map, Hk. reflexivity.
Qed.

(** *** One run of [getPricingFromRpc] *)

(** Unfolds the steps of a computation down to worlds and outcomes. *)
Ltac run_steps :=
  unfold bind, ret, lift, throw, send, Js.log; cbn [w_logs w_batches].

(** Lengths of samples, batches and answers. *)
Create Rewrite HintDb len.

Section Sampler.

Variables (this : HydrexFi.t) (H : DexHelper) (U : Utils).
Variables (from to : Token) (side : SwapSide) (fees : TransferFeeParams).

Lemma quotedAmounts_length (samples : list Z) :
  List.length (quotedAmounts U fees side samples) = List.length samples.
Proof.
  unfold quotedAmounts, applyTransferFee.
  destruct (isSrcTokenTransferFeeToBeExchanged U fees);
    [apply length_map | reflexivity].
Qed.

Lemma quoteBatch_length (quoted : list Z) (pools : list Pool) :
  List.length (quoteBatch this U from to side quoted pools)
  = (List.length pools * List.length quoted)%nat.
Proof.
  unfold quoteBatch. induction pools as [|p r IH]; simpl.
  - reflexivity.
  - rewrite length_app, IH. unfold callsFor at 1. now rewrite length_map.
Qed.

#[local] Hint Rewrite
  @length_map @indexed_length sampleAmounts_length quotedAmounts_length
  quoteBatch_length : len.

(** The samples of a request and the batch that quotes them. *)
Let samplesOf (amounts : list Z) : list Z :=
  sampleAmounts (chunksCount (HydrexFi.config this)) (unitVolumeOf from to side)
                amounts.

Let batchOf (amounts : list Z) (pools : list Pool) : list MultiCallParams :=
  quoteBatch this U from to side (quotedAmounts U fees side (samplesOf amounts))
             pools.

(** The entry built for the pool at index [fst entry]. *)
Let entryOf (amounts : list Z) (results : list MultiResult)
    (entry : nat * Pool) : PoolPrices :=
  pricesFrom this U from to amounts side fees (samplesOf amounts)
    (map (rateOf (everyCallFailed results) (SwapSide_eqb side SELL))
         (combine (samplesOf amounts)
                  (answersFor results (List.length (samplesOf amounts))
                              (fst entry))))
    (snd entry).

Lemma answers_per_pool (amounts : list Z) (pools : list Pool)
    (results : list MultiResult) (p : nat) :
  List.length results = List.length (batchOf amounts pools) ->
  (p < List.length pools)%nat ->
  (S p * List.length (samplesOf amounts) <= List.length results)%nat.
Proof.
  intros Hlen Hp. rewrite Hlen. unfold batchOf. autorewrite with len. nia.
Qed.

Lemma pool_prices_ok (amounts samples quoted : list Z)
    (results : list MultiResult) (allFailed : bool) (poolIndex : nat)
    (pool : Pool) :
  List.length quoted = List.length samples ->
  (S poolIndex * List.length samples <= List.length results)%nat ->
  HydrexFi.pool_prices this U from to amounts side fees samples quoted results
                       allFailed (poolIndex, pool)
  = Ok (pricesFrom this U from to amounts side fees samples
          (map (rateOf allFailed (SwapSide_eqb side SELL))
               (combine samples
                        (answersFor results (List.length samples) poolIndex)))
          pool).
Proof.
  intros Hq Hlen. unfold HydrexFi.pool_prices, indexed. rewrite Hq.
  rewrite (sample_rates_from results allFailed (SwapSide_eqb side SELL)
             (poolIndex * List.length samples) samples 0) by (simpl in Hlen; lia).
  simpl. rewrite Nat.add_0_r. reflexivity.
Qed.

(** What one run does once the reader has answered every call of the batch:
    two log lines at most, one batch, one entry per pool. *)
Lemma getPricingFromRpc_run (amounts : list Z) (pools : list Pool)
    (results : list MultiResult) (w : W) :
  pools <> [] ->
  amounts <> [] ->
  tryAggregate H false (batchOf amounts pools) = Ok results ->
  List.length results = List.length (batchOf amounts pools) ->
  HydrexFi.getPricingFromRpc this H U from to amounts side pools fees w
  = (mkWorld (w_logs w ++ samplerLogs pools results)
             (w_batches w ++ [batchOf amounts pools]),
     Ok (Some (map (entryOf amounts results) (indexed pools)))).
Proof.
  intros Hp Ha Hr Hlen.
  unfold HydrexFi.getPricingFromRpc.
  destruct pools as [|p0 ps]; [congruence|].
  change (List.length (p0 :: ps) =? 0)%nat with false. cbv iota.
  set (pools := p0 :: ps) in *.
  unfold bind at 1. unfold Js.log at 1.
  fold (unitVolumeOf from to side).
  rewrite (chunkAmounts_defined _ _ _ Ha). fold (samplesOf amounts).
  fold (quotedAmounts U fees side (samplesOf amounts)).
  change (flat_map _ pools) with (batchOf amounts pools).
  unfold bind at 1. unfold send. rewrite Hr.
  fold (everyCallFailed results).
  assert (Hall :
    mapR (HydrexFi.pool_prices this U from to amounts side fees
            (samplesOf amounts) (quotedAmounts U fees side (samplesOf amounts))
            results (everyCallFailed results))
         (indexed pools)
    = Ok (map (entryOf amounts results) (indexed pools))).
  { apply mapR_total. intros [i pool] Hin. unfold entryOf. cbn [fst snd].
    apply pool_prices_ok; [apply quotedAmounts_length|].
    apply indexed_in in Hin.
    apply (answers_per_pool amounts pools results i Hlen).
    apply nth_error_Some; congruence. }
  unfold samplerLogs.
  destruct (everyCallFailed results) eqn:Eall; run_steps;
    rewrite Hall; rewrite <- ?app_assoc; try rewrite app_nil_r; reflexivity.
Qed.




End Sampler.

(** C3: [getPricesVolume] always returns, never throws: it returns [null]
    when the wrapped, lowered source and destination addresses are equal,
    when a source-side transfer fee applies on the BUY side, and when the
    body of its [try] throws. *)
Theorem C3_getPricesVolume_never_throws (this : HydrexFi.t) (H : DexHelper)
    (U : Utils) (srcToken destToken : Token) (amounts : list Z)
    (side : SwapSide) (blockNumber : Z) (limitPools : option (list string))
    (fees : TransferFeeParams) (w : W) :
  exists w' r,
    HydrexFi.getPricesVolume this H U srcToken destToken amounts side
                             blockNumber limitPools fees w
    = (w', Ok r)
    /\ (toLowerCase (address (wrapETH H srcToken))
        = toLowerCase (address (wrapETH H destToken)) -> r = None)
    /\ (isSrcTokenTransferFeeToBeExchanged U fees = true -> side = BUY ->
        r = None)
    /\ (forall w1 e,
          HydrexFi.getPricesVolume_try this H U srcToken destToken amounts side
                                       blockNumber limitPools fees w
          = (w1, Throw e) ->
          r = None).
Proof.
  unfold HydrexFi.getPricesVolume, try_catch.
  destruct (HydrexFi.getPricesVolume_try this H U srcToken destToken amounts
              side blockNumber limitPools fees w) as [w1 [r|e]] eqn:E.
  - exists w1, r. split; [reflexivity|].
    unfold HydrexFi.getPricesVolume_try, HydrexFi._getLoweredAddresses in E.
    split; [|split].
    + intros Heq.
      destruct (isSrcTokenTransferFeeToBeExchanged U fees && SwapSide_eqb side BUY).
      * unfold ret in E. congruence.
      * rewrite Heq, String.eqb_refl in E. unfold ret in E. congruence.
    + intros Hfee ->. rewrite Hfee in E. simpl in E. unfold ret in E. congruence.
    + intros w2 e. discriminate.
  - run_steps. eexists; eexists; split; [reflexivity|].
    repeat split; reflexivity.
Qed.

(** An empty request: the sampler throws on its undefined samples, and
    [getPricesVolume] logs the error and returns [null]. *)
Example getPricesVolume_catches_empty_request :
  HydrexFi.getPricesVolume
    (Examples.dex (Factory.getMockPoolsForTesting Examples.utils))
    Examples.base Examples.utils Examples.WETH Examples.USDC [] SELL 100 None
    Examples.noFees Examples.w0
  = (mkWorld
       [(LvWarn, "fallback to rpc for 1 pool(s)");
        (LvError,
         "Error_getPricesVolume WETH, USDC, SELL: Cannot read properties of undefined: toString")]
       [],
     Ok None).
Proof. reflexivity. Qed.

(** *** The statements at concrete requests *)






(** The scenario of the pricing tests: eleven requested amounts and
    [chunksCount = 10] give the unit sample and the ten amounts 1e18 ... 10e18,
    and all eleven outputs are produced; here the reader fails above 7e18. *)
Example scenario_eleven_amounts :
  sampleAmounts 10 (unitVolumeOf Examples.WETH Examples.USDC SELL)
                Examples.amounts11
  = 10 ^ 18 :: tl Examples.amounts11
  /\ exists w' entry,
       HydrexFi.getPricingFromRpc (Examples.dex [])
         (Examples.helper (Examples.halves (7 * 10 ^ 18))
                          (Examples.failingSubgraph "boom"))
         Examples.utils Examples.WETH Examples.USDC Examples.amounts11 SELL
         [Examples.otherPool] Examples.noFees Examples.w0
       = (w', Ok (Some [entry]))
       /\ List.length (prices entry) = 11%nat
       /\ nth 7 (prices entry) 0 = 7 * 10 ^ 18 / 2
       /\ nth 8 (prices entry) 0 = 0.
Proof.
  split; [reflexivity|].
  eexists; eexists; split; [vm_compute; reflexivity|].
  repeat split.
Qed.

(* ================================================================== *)
(** * Further properties *)
(* ================================================================== *)

(** ** The bulk load, page by page *)

Lemma queryOnePage_data (fuel : nat) (H : DexHelper) (f : Factory.t)
    (blockNumber skip limit : Z) (latest : bool) (res : SubgraphResponse)
    (raw : list RawPool) (w : W) :
  querySubgraph H (mkQuery (if latest then None else Some blockNumber) skip limit)
  = Ok res ->
  noErrors res ->
  data_pools res = Some raw ->
  Factory.queryOnePageForAllAvailablePoolsFromSubgraph
    (S fuel) H f blockNumber skip limit latest w
  = (w, Ok (Some (map Factory.pool_of_raw raw))).
Proof.
  intros Hq He Hd. simpl. unfold bind, lift. rewrite Hq.
  destruct He as [-> | ->]; rewrite Hd; reflexivity.
Qed.

Lemma queryAll_while_pages (H : DexHelper) (f : Factory.t) (blockNumber : Z)
    (pages : nat -> list RawPool) (fuel d j n : nat) (acc : list Pool) (w : W) :
  (forall i, (i <= j + d)%nat ->
     exists res,
       querySubgraph H (mkQuery (Some blockNumber)
                                (Factory.defaultPerPageLimit * Z.of_nat i)
                                Factory.defaultPerPageLimit)
       = Ok res
       /\ noErrors res /\ data_pools res = Some (pages i)) ->
  (forall i, (i < j + d)%nat -> List.length (pages i) = 1000%nat) ->
  List.length (pages (j + d)%nat) <> 1000%nat ->
  (d <= n)%nat ->
  Factory.queryAll_while n (S fuel) H f blockNumber
    (Factory.defaultPerPageLimit * Z.of_nat j) acc
    (map Factory.pool_of_raw (pages j)) w
  = (w, Ok (Some (acc ++ concat (map (fun i => map Factory.pool_of_raw (pages i))
                                     (seq (S j) d))))).
Proof.
  revert j n acc. induction d as [|d IH]; intros j n acc Hq Hfull Hshort Hn.
  - rewrite Nat.add_0_r in *.
    destruct n; simpl; rewrite length_map;
      (destruct (Z.eqb_spec (Z.of_nat (List.length (pages j)))
                            Factory.defaultPerPageLimit) as [E|E];
       [unfold Factory.defaultPerPageLimit in E; lia|]);
      now rewrite app_nil_r.
  - destruct n as [|n]; [lia|]. cbn [Factory.queryAll_while].
    rewrite length_map, (Hfull j) by lia.
    change (Z.of_nat 1000 =? Factory.defaultPerPageLimit) with true. cbv iota.
    destruct (Hq (S j) ltac:(lia)) as (res & Hres & Hne & Hdata).
    unfold Factory.bindF, bind.
    replace (Factory.defaultPerPageLimit * Z.of_nat j
             + Factory.defaultPerPageLimit)
      with (Factory.defaultPerPageLimit * Z.of_nat (S j)) by lia.
    rewrite (queryOnePage_data fuel H f blockNumber _ _ false res (pages (S j)) w
               Hres Hne Hdata).
    rewrite (IH (S j) n).
    + simpl. now rewrite <- app_assoc.
    + intros i Hi. apply Hq. lia.
    + intros i Hi. apply Hfull. lia.
    + now replace (S j + d)%nat with (j + S d)%nat by lia.
    + lia.
Qed.

Lemma queryAll_pages
    (H : DexHelper) (f : Factory.t) (blockNumber : Z)
    (pages : nat -> list RawPool) (k fuel : nat) (w : W) :
  (forall i, (i <= k)%nat ->
     exists res,
       querySubgraph H (mkQuery (Some blockNumber)
                                (Factory.defaultPerPageLimit * Z.of_nat i)
                                Factory.defaultPerPageLimit)
       = Ok res
       /\ noErrors res /\ data_pools res = Some (pages i)) ->
  (forall i, (i < k)%nat -> List.length (pages i) = 1000%nat) ->
  List.length (pages k) <> 1000%nat ->
  (k < fuel)%nat ->
  Factory.queryAllAvailablePools fuel H f blockNumber w
  = (w, Ok (Some (pagesUpTo pages k))).
Proof.
  intros Hq Hfull Hshort Hfuel.
  destruct fuel as [|fuel]; [lia|].
  unfold Factory.queryAllAvailablePools, Factory.bindF, bind.
  destruct (Hq 0%nat ltac:(lia)) as (res & Hres & Hne & Hdata).
  rewrite Z.mul_0_r in Hres.
  rewrite (queryOnePage_data fuel H f blockNumber 0 _ false res (pages 0%nat) w
             Hres Hne Hdata).
  change 0 with (Factory.defaultPerPageLimit * Z.of_nat 0) at 1.
  rewrite (queryAll_while_pages H f blockNumber pages fuel k 0 (S fuel)); auto.
  lia.
Qed.

(** X1: pagination.  When the subgraph answers the pages [0 .. k] without
    error, every page before page [k] holds the page limit of 1000 pools
    and page [k] does not, [queryAllAvailablePools] returns the pools of
    the pages [0 .. k] in page order and logs nothing, whatever the
    subgraph holds behind page [k]. *)
Theorem queryAllAvailablePools_concatenates_pages
    (H : DexHelper) (f : Factory.t) (blockNumber : Z)
    (pages : nat -> list RawPool) (k fuel : nat) (w : W) :
  (forall i, (i <= k)%nat ->
     exists res,
       querySubgraph H (mkQuery (Some blockNumber)
                                (Factory.defaultPerPageLimit * Z.of_nat i)
                                Factory.defaultPerPageLimit)
       = Ok res
       /\ noErrors res /\ data_pools res = Some (pages i)) ->
  (forall i, (i < k)%nat -> List.length (pages i) = 1000%nat) ->
  List.length (pages k) <> 1000%nat ->
  (k < fuel)%nat ->
  Factory.queryAllAvailablePools fuel H f blockNumber w
  = (w, Ok (Some (pagesUpTo pages k))).
Proof. exact (queryAll_pages H f blockNumber pages k fuel w). Qed.

(** ** The latest-block fallback *)

(** X2: when the subgraph answers the query pinned to [blockNumber] with an
    error whose first message says the block is missing or not yet
    available, the page is asked again without the block, one info line is
    logged, and the pools of that second answer are the page. *)
Theorem queryOnePage_falls_back_to_latest
    (fuel : nat) (H : DexHelper) (f : Factory.t) (blockNumber skip limit : Z)
    (pinned latest : SubgraphResponse) (m : string) (rest : list string)
    (raw : list RawPool) (w : W) :
  querySubgraph H (mkQuery (Some blockNumber) skip limit) = Ok pinned ->
  errors pinned = Some (m :: rest) ->
  blockUnavailable m = true ->
  querySubgraph H (mkQuery None skip limit) = Ok latest ->
  noErrors latest ->
  data_pools latest = Some raw ->
  Factory.queryOnePageForAllAvailablePoolsFromSubgraph
    (S (S fuel)) H f blockNumber skip limit false w
  = (mkWorld
       (w_logs w
          ++ [(LvInfo,
               (Factory.parentName f
                  ++ ": subgraph fallback to the latest block...")%string)])
       (w_batches w),
     Ok (Some (map Factory.pool_of_raw raw))).
Proof.
  intros Hp He Hm Hl Hn Hd.
  cbn [Factory.queryOnePageForAllAvailablePoolsFromSubgraph].
  unfold bind at 1. unfold lift at 1. rewrite Hp, He.
  unfold blockUnavailable in Hm. rewrite Hm.
  unfold bind at 1. unfold Js.log at 1.
  exact (queryOnePage_data fuel H f blockNumber skip limit true latest raw _
           Hl Hn Hd).
Qed.

(** X3: the retry is not bounded.  When the subgraph reports the block as
    unavailable for the query without a block too, the page query asks
    again and again: whatever the number of rounds allowed, it has not
    returned and has logged one fallback line per round. *)
Theorem queryOnePage_unavailable_latest_never_returns
    (H : DexHelper) (f : Factory.t) (blockNumber skip limit : Z)
    (latestBlock : bool) :
  (forall block,
     exists res m rest,
       querySubgraph H (mkQuery block skip limit) = Ok res
       /\ errors res = Some (m :: rest)
       /\ blockUnavailable m = true) ->
  forall (fuel : nat) (w : W),
    exists w',
      Factory.queryOnePageForAllAvailablePoolsFromSubgraph
        fuel H f blockNumber skip limit latestBlock w
      = (w', Ok None)
      /\ List.length (w_logs w') = (List.length (w_logs w) + fuel)%nat.
Proof.
  intros Hq fuel. revert latestBlock.
  induction fuel as [|fuel IH]; intros latestBlock w.
  - exists w. split; [reflexivity | simpl; lia].
  - cbn [Factory.queryOnePageForAllAvailablePoolsFromSubgraph].
    destruct (Hq (if latestBlock then None else Some blockNumber))
      as (res & m & rest & Hres & He & Hm).
    unfold bind at 1. unfold lift at 1. rewrite Hres, He.
    unfold blockUnavailable in Hm. rewrite Hm.
    unfold bind at 1. unfold Js.log at 1.
    destruct (IH true
                (mkWorld
                   (w_logs w
                      ++ [(LvInfo,
                           (Factory.parentName f
                              ++ ": subgraph fallback to the latest block...")%string)])
                   (w_batches w)))
      as (w' & Hrun & Hlen).
    exists w'. split; [exact Hrun|].
    rewrite Hlen. cbn [w_logs]. rewrite length_app. simpl. lia.
Qed.

(** ** Lower case *)

Lemma lower_ascii_idem (c : ascii) : lower_ascii (lower_ascii c) = lower_ascii c.
Proof.
  destruct c as [[] [] [] [] [] [] [] []]; reflexivity.
Qed.

Lemma toLowerCase_idem (s : string) : lowercase (toLowerCase s).
Proof.
  unfold lowercase. induction s as [|c r IH]; simpl.
  - reflexivity.
  - now rewrite lower_ascii_idem, IH.
Qed.

Lemma pool_of_raw_canonical (r : RawPool) : canonical (Factory.pool_of_raw r).
Proof. repeat split; apply toLowerCase_idem. Qed.

Lemma mock_pools_canonical (U : Utils) :
  Forall canonical (Factory.getMockPoolsForTesting U).
Proof. repeat constructor. Qed.

Lemma queryOnePage_canonical (fuel : nat) (H : DexHelper) (f : Factory.t)
    (blockNumber skip limit : Z) (latest : bool) (w w' : W) (ps : list Pool) :
  Factory.queryOnePageForAllAvailablePoolsFromSubgraph
    fuel H f blockNumber skip limit latest w = (w', Ok (Some ps)) ->
  Forall canonical ps.
Proof.
  revert latest w. induction fuel as [|fuel IH]; intros latest w; simpl.
  - discriminate.
  - unfold bind at 1, lift at 1.
    destruct (querySubgraph H _) as [res|e]; [|discriminate].
    assert (Hdata :
      match data_pools res with
      | Some raw => ret (Some (map Factory.pool_of_raw raw))
      | None => throw (TypeError "Cannot read properties of undefined")
      end w = (w', Ok (Some ps)) -> Forall canonical ps).
    { destruct (data_pools res) as [raw|]; [|discriminate].
      intros E. injection E as _ <-.
      apply Forall_forall. intros p Hp. apply in_map_iff in Hp.
      destruct Hp as (r & <- & _). apply pool_of_raw_canonical. }
    destruct (errors res) as [[|m rest]|]; try exact Hdata.
    destruct (includes m "missing block" || includes m "not yet available").
    + unfold bind, Js.log. apply IH.
    + discriminate.
Qed.

Lemma queryAll_while_canonical (n fuel : nat) (H : DexHelper) (f : Factory.t)
    (blockNumber skip : Z) (acc cur : list Pool) (w w' : W) (ps : list Pool) :
  Forall canonical acc ->
  Factory.queryAll_while n fuel H f blockNumber skip acc cur w
  = (w', Ok (Some ps)) ->
  Forall canonical ps.
Proof.
  revert skip acc cur w. induction n as [|n IH]; intros skip acc cur w Hacc;
    simpl; destruct (_ =? _).
  - discriminate.
  - intros E; injection E as _ <-; assumption.
  - unfold Factory.bindF, bind.
    destruct (Factory.queryOnePageForAllAvailablePoolsFromSubgraph
                fuel H f blockNumber _ _ false w) as [w1 [[page|]|e]] eqn:Ep;
      try discriminate.
    apply IH. apply Forall_app. split; [assumption|].
    eapply queryOnePage_canonical; eassumption.
  - intros E; injection E as _ <-; assumption.
Qed.


(** ** Creation events *)

(** X5: a log only ever appends to the registry.  [processLog] of the
    factory logs nothing and sends nothing; when it returns, the pools are
    the former ones followed by at most one new pool, in lower case and of
    TVL zero; it removes, reorders and rewrites nothing. *)
Theorem Factory_processLog_append_only (U : Utils) (f : Factory.t)
    (state : FactoryState) (log : Log) (w : W) :
  match Factory.processLog U f state log w with
  | (w', Ok (f', _)) =>
      w' = w
      /\ Factory.parentName f' = Factory.parentName f
      /\ exists created,
           Factory.pools f' = Factory.pools f ++ created
           /\ (List.length created <= 1)%nat
           /\ Forall (fun p => canonical p /\ (tvlUSD p == 0)%Q) created
  | (w', Throw _) => w' = w
  end.
Proof.
  unfold Factory.processLog, bind, lift, ret.
  destruct (Factory.logDecoder f log) as [event|e]; [|reflexivity].
  assert (Hnone : w = w /\ Factory.parentName f = Factory.parentName f
                  /\ exists created,
                       Factory.pools f = Factory.pools f ++ created
                       /\ (List.length created <= 1)%nat
                       /\ Forall (fun p => canonical p /\ (tvlUSD p == 0)%Q)
                                 created).
  { split; [reflexivity|]. split; [reflexivity|].
    exists []. rewrite app_nil_r. repeat split; auto. }
  assert (Hone : forall a t0 t1 d,
            w = w
            /\ Factory.parentName
                 (Factory.set_pools f
                    (Factory.pools f ++ [mkPool (toLowerCase a) (toLowerCase t0)
                                                (toLowerCase t1) d 0%Q]))
               = Factory.parentName f
            /\ exists created,
                 Factory.pools
                   (Factory.set_pools f
                      (Factory.pools f
                         ++ [mkPool (toLowerCase a) (toLowerCase t0)
                                    (toLowerCase t1) d 0%Q]))
                 = Factory.pools f ++ created
                 /\ (List.length created <= 1)%nat
                 /\ Forall (fun p => canonical p /\ (tvlUSD p == 0)%Q) created).
  { intros a t0 t1 d. split; [reflexivity|]. split; [reflexivity|].
    eexists. split; [reflexivity|]. split; [simpl; lia|].
    constructor; [|constructor].
    split; [repeat split; apply toLowerCase_idem | reflexivity]. }
  unfold Factory.handlers. simpl.
  destruct (String.eqb (name event) "Pool").
  - unfold Factory.handleNewPool, Factory.lowered, Factory.lowered_or_empty.
    destruct (arg_token0 (args event)) as [t0|]; [|reflexivity].
    destruct (arg_token1 (args event)) as [t1|]; [|reflexivity].
    simpl.
    destruct (arg_pool (args event)) as [a|]; simpl; [|exact Hnone].
    destruct (String.eqb (toLowerCase a) ""); simpl; [exact Hnone | apply Hone].
  - destruct (String.eqb (name event) "CustomPool"); [|exact Hnone].
    unfold Factory.handleNewCustomPool, Factory.lowered, Factory.lowered_or_empty.
    destruct (arg_token0 (args event)) as [t0|]; [|reflexivity].
    destruct (arg_token1 (args event)) as [t1|]; [|reflexivity].
    destruct (arg_deployer (args event)) as [d|]; [|reflexivity].
    simpl.
    destruct (arg_pool (args event)) as [a|]; simpl; [|exact Hnone].
    destruct (String.eqb (toLowerCase a) ""); simpl; [exact Hnone | apply Hone].
Qed.

Lemma processLog_Pool_event (U : Utils) (f : Factory.t)
    (state : FactoryState) (log : Log) (event : LogDescription)
    (t0 t1 a : string) (w : W) :
  Factory.logDecoder f log = Ok event ->
  name event = "Pool" ->
  arg_token0 (args event) = Some t0 ->
  arg_token1 (args event) = Some t1 ->
  arg_pool (args event) = Some a ->
  toLowerCase a <> "" ->
  Factory.processLog U f state log w
  = (w, Ok (Factory.set_pools f
              (Factory.pools f ++ [createdPool a t0 t1 (NULL_ADDRESS U)]),
            tt)).
Proof.
  intros Hd Hn H0 H1 Ha Hne.
  unfold Factory.processLog, bind, lift, ret. rewrite Hd, Hn. simpl.
  unfold Factory.handleNewPool. rewrite H0, H1, Ha. simpl.
  destruct (String.eqb_spec (toLowerCase a) ""); [contradiction|]. reflexivity.
Qed.

(** X6: a [Pool] event with a pool address appends that pool to the
    registry: tokens and address in lower case, the null address as
    deployer, TVL zero.  Nothing is logged and nothing checks whether the
    pool is registered already. *)
Theorem processLog_stores_created_pool (U : Utils) (f : Factory.t)
    (state : FactoryState) (log : Log) (event : LogDescription)
    (t0 t1 a : string) (w : W) :
  Factory.logDecoder f log = Ok event ->
  name event = "Pool" ->
  arg_token0 (args event) = Some t0 ->
  arg_token1 (args event) = Some t1 ->
  arg_pool (args event) = Some a ->
  toLowerCase a <> "" ->
  Factory.processLog U f state log w
  = (w, Ok (Factory.set_pools f
              (Factory.pools f ++ [createdPool a t0 t1 (NULL_ADDRESS U)]),
            tt)).
Proof. exact (processLog_Pool_event U f state log event t0 t1 a w). Qed.

(** X7: a [CustomPool] event with a pool address appends that pool with
    the event's own deployer in lower case. *)
Theorem processLog_stores_created_custom_pool (U : Utils) (f : Factory.t)
    (state : FactoryState) (log : Log) (event : LogDescription)
    (t0 t1 d a : string) (w : W) :
  Factory.logDecoder f log = Ok event ->
  name event = "CustomPool" ->
  arg_token0 (args event) = Some t0 ->
  arg_token1 (args event) = Some t1 ->
  arg_deployer (args event) = Some d ->
  arg_pool (args event) = Some a ->
  toLowerCase a <> "" ->
  Factory.processLog U f state log w
  = (w, Ok (Factory.set_pools f
              (Factory.pools f ++ [createdPool a t0 t1 (toLowerCase d)]),
            tt)).
Proof.
  intros Hd Hn H0 H1 Hdep Ha Hne.
  unfold Factory.processLog, bind, lift, ret. rewrite Hd, Hn. simpl.
  unfold Factory.handleNewCustomPool. rewrite H0, H1, Hdep, Ha. simpl.
  destruct (String.eqb_spec (toLowerCase a) ""); [contradiction|]. reflexivity.
Qed.

(** ** Pair lookup *)

Lemma pair_matches_sym (a b : string) (p : Pool) :
  Factory.pair_matches a b p = Factory.pair_matches b a p.
Proof. unfold Factory.pair_matches. apply orb_comm. Qed.

Lemma lookup_symmetric (H : DexHelper) (f : Factory.t)
    (tokenA tokenB : string) (blockA blockB : Z) :
  Factory.getAvailablePoolsForPair H f tokenA tokenB blockA
  = Factory.getAvailablePoolsForPair H f tokenB tokenA blockB.
Proof.
  unfold Factory.getAvailablePoolsForPair. f_equal.
  apply filter_ext. intros p. apply pair_matches_sym.
Qed.

(** X8: the pair lookup does not depend on the order of the two tokens nor
    on the block number: both requests return the same pools in the same
    order. *)
Theorem getAvailablePoolsForPair_symmetric (H : DexHelper) (f : Factory.t)
    (tokenA tokenB : string) (blockA blockB : Z) :
  Factory.getAvailablePoolsForPair H f tokenA tokenB blockA
  = Factory.getAvailablePoolsForPair H f tokenB tokenA blockB.
Proof. exact (lookup_symmetric H f tokenA tokenB blockA blockB). Qed.

Lemma lookup_finds (H : DexHelper) (f : Factory.t) (x y : string)
    (blockNumber : Z) (p : Pool) :
  In p (Factory.pools f) ->
  token0 p = toLowerCase (wrapETH_address H x) ->
  token1 p = toLowerCase (wrapETH_address H y) ->
  In p (Factory.getAvailablePoolsForPair H f x y blockNumber)
  /\ In p (Factory.getAvailablePoolsForPair H f y x blockNumber).
Proof.
  intros Hin H0 H1.
  assert (G : In p (Factory.getAvailablePoolsForPair H f x y blockNumber)).
  { unfold Factory.getAvailablePoolsForPair.
    apply (Permutation_in _ (Permutation_sym (sort_perm _ _))), filter_In.
    split; [assumption|]. apply pair_matches_iff. left. now split. }
  split; [exact G|].
  now rewrite (lookup_symmetric H f y x blockNumber blockNumber).
Qed.


(** X10: after [initialize] on a subgraph whose single page lists [r], the
    registry holds exactly the pools of that page and the pair lookup for
    the tokens of [r], in either order and however the subgraph cased them,
    finds the pool of [r]. *)
Theorem loaded_pool_is_found (fuel : nat) (H : DexHelper) (U : Utils)
    (f : Factory.t) (blockNumber : Z) (res : SubgraphResponse)
    (raw : list RawPool) (r : RawPool) (w : W) :
  querySubgraph H (mkQuery (Some blockNumber) 0 Factory.defaultPerPageLimit)
  = Ok res ->
  noErrors res ->
  data_pools res = Some raw ->
  List.length raw <> 1000%nat ->
  In r raw ->
  wrapETH_address H (raw_token0 r) = raw_token0 r ->
  wrapETH_address H (raw_token1 r) = raw_token1 r ->
  exists f',
    Factory.initialize (S fuel) H U f blockNumber w = (w, Ok (Some f'))
    /\ Factory.pools f' = map Factory.pool_of_raw raw
    /\ In (Factory.pool_of_raw r)
          (Factory.getAvailablePoolsForPair H f' (raw_token0 r) (raw_token1 r)
                                            blockNumber)
    /\ In (Factory.pool_of_raw r)
          (Factory.getAvailablePoolsForPair H f' (raw_token1 r) (raw_token0 r)
                                            blockNumber).
Proof.
  intros Hq Hne Hd Hlen Hin Hw0 Hw1.
  assert (Hall : Factory.queryAllAvailablePools (S fuel) H f blockNumber w
                 = (w, Ok (Some (pagesUpTo (fun _ => raw) 0)))).
  { apply queryAll_pages; try lia; try assumption.
    intros i Hi. assert (i = 0%nat) as -> by lia. exists res.
    rewrite Z.mul_0_r. auto. }
  unfold pagesUpTo in Hall. simpl in Hall. rewrite app_nil_r in Hall.
  exists (Factory.set_pools f (map Factory.pool_of_raw raw)).
  split.
  { unfold Factory.initialize, try_catch, Factory.bindF, bind.
    now rewrite Hall. }
  split; [reflexivity|].
  apply lookup_finds.
  - simpl. now apply in_map.
  - simpl. now rewrite Hw0.
  - simpl. now rewrite Hw1.
Qed.

(** ** Pool identifiers *)

(** X11: [getPoolIdentifiers] is the same list for a pair and for the
    reversed pair, whatever the side and the block, and it has one
    identifier per pool of the pair lookup (none for a token against
    itself). *)
Theorem getPoolIdentifiers_direction_independent (this : HydrexFi.t)
    (H : DexHelper) (srcToken destToken : Token) (sideA sideB : SwapSide)
    (blockA blockB : Z) :
  Dex.getPoolIdentifiers this H srcToken destToken sideA blockA
  = Dex.getPoolIdentifiers this H destToken srcToken sideB blockB
  /\ List.length (Dex.getPoolIdentifiers this H srcToken destToken sideA blockA)
     = (if String.eqb (toLowerCase (address (wrapETH H srcToken)))
                      (toLowerCase (address (wrapETH H destToken)))
        then 0%nat
        else List.length
               (Factory.getAvailablePoolsForPair H (HydrexFi.factory this)
                  (toLowerCase (address (wrapETH H srcToken)))
                  (toLowerCase (address (wrapETH H destToken))) blockA)).
Proof.
  unfold Dex.getPoolIdentifiers, HydrexFi._getLoweredAddresses.
  set (a := toLowerCase (address (wrapETH H srcToken))).
  set (b := toLowerCase (address (wrapETH H destToken))).
  rewrite (String.eqb_sym b a).
  destruct (String.eqb a b); [split; reflexivity|].
  rewrite (lookup_symmetric H _ b a blockB blockA).
  destruct (Factory.getAvailablePoolsForPair H (HydrexFi.factory this) a b blockA)
    as [|p ps]; [split; reflexivity|].
  cbn [List.length Nat.eqb]. split.
  - apply map_ext. intros pool. unfold HydrexFi.getPoolIdentifier.
    now rewrite (sortTokens_sym a b).
  - now rewrite length_map.
Qed.

Lemma filter_all {A} (g : A -> bool) (l : list A) :
  (forall x, In x l -> g x = true) -> filter g l = l.
Proof.
  induction l as [|x r IH]; intros Hg; simpl; [reflexivity|].
  rewrite (Hg x (or_introl eq_refl)). f_equal. apply IH.
  intros y Hy. apply Hg. now right.
Qed.

Lemma set_has_in (l : list string) (x : string) : In x l -> set_has l x = true.
Proof.
  intros Hin. unfold set_has. apply existsb_exists. exists x.
  split; [assumption | apply String.eqb_refl].
Qed.

(** X12: restricting [getPricesVolume] to the identifiers
    [getPoolIdentifiers] returns for the same request changes nothing: the
    result, the log and the calls are those of the unrestricted request. *)
Theorem getPricesVolume_limited_to_own_identifiers (this : HydrexFi.t)
    (H : DexHelper) (U : Utils) (srcToken destToken : Token)
    (amounts : list Z) (side : SwapSide) (blockNumber : Z)
    (fees : TransferFeeParams) (w : W) :
  HydrexFi.getPricesVolume this H U srcToken destToken amounts side blockNumber
    (Some (Dex.getPoolIdentifiers this H srcToken destToken side blockNumber))
    fees w
  = HydrexFi.getPricesVolume this H U srcToken destToken amounts side
      blockNumber None fees w.
Proof.
  unfold HydrexFi.getPricesVolume. f_equal.
  unfold HydrexFi.getPricesVolume_try, Dex.getPoolIdentifiers,
    HydrexFi._getLoweredAddresses.
  set (a := toLowerCase (address (wrapETH H srcToken))).
  set (b := toLowerCase (address (wrapETH H destToken))).
  destruct (isSrcTokenTransferFeeToBeExchanged U fees && SwapSide_eqb side BUY);
    [reflexivity|].
  destruct (String.eqb a b); [reflexivity|].
  destruct (Factory.getAvailablePoolsForPair H (HydrexFi.factory this) a b
              blockNumber) as [|p ps] eqn:E; [reflexivity|].
  cbn [List.length Nat.eqb map].
  set (ids := HydrexFi.getPoolIdentifier this a b (deployer p)
              :: map (fun pool => HydrexFi.getPoolIdentifier this a b
                                    (deployer pool)) ps).
  rewrite (filter_all _ (p :: ps)); [reflexivity|].
  intros pool Hin. apply set_has_in.
  change ids with (map (fun pool => HydrexFi.getPoolIdentifier this a b
                                      (deployer pool)) (p :: ps)).
  now apply (in_map (fun pool => HydrexFi.getPoolIdentifier this a b
                                   (deployer pool))).
Qed.

(** X13: when no registered pool is of the pair, [getPoolIdentifiers] is
    empty and [getPricesVolume] returns null without a log line and without
    a remote call, whatever [limitPools]. *)
Theorem no_pool_no_quote (this : HydrexFi.t) (H : DexHelper) (U : Utils)
    (srcToken destToken : Token) (amounts : list Z) (side : SwapSide)
    (blockNumber : Z) (limitPools : option (list string))
    (fees : TransferFeeParams) (w : W) :
  (forall p, In p (Factory.pools (HydrexFi.factory this)) ->
     Factory.pair_matches
       (toLowerCase (wrapETH_address H
                       (toLowerCase (address (wrapETH H srcToken)))))
       (toLowerCase (wrapETH_address H
                       (toLowerCase (address (wrapETH H destToken)))))
       p = false) ->
  Dex.getPoolIdentifiers this H srcToken destToken side blockNumber = []
  /\ HydrexFi.getPricesVolume this H U srcToken destToken amounts side
       blockNumber limitPools fees w
     = (w, Ok None).
Proof.
  intros Hno.
  assert (Hnil : Factory.getAvailablePoolsForPair H (HydrexFi.factory this)
                   (toLowerCase (address (wrapETH H srcToken)))
                   (toLowerCase (address (wrapETH H destToken))) blockNumber
                 = []).
  { unfold Factory.getAvailablePoolsForPair.
    replace (filter _ _) with (@nil Pool); [reflexivity|].
    symmetry. induction (Factory.pools (HydrexFi.factory this)) as [|p r IH];
      [reflexivity|].
    simpl. rewrite (Hno p (or_introl eq_refl)). apply IH.
    intros q Hq. apply Hno. now right. }
  split.
  - unfold Dex.getPoolIdentifiers, HydrexFi._getLoweredAddresses.
    destruct (String.eqb _ _); [reflexivity|]. now rewrite Hnil.
  - unfold HydrexFi.getPricesVolume, try_catch, HydrexFi.getPricesVolume_try,
      HydrexFi._getLoweredAddresses.
    destruct (isSrcTokenTransferFeeToBeExchanged U fees && SwapSide_eqb side BUY);
      [reflexivity|].
    destruct (String.eqb _ _); [reflexivity|].
    rewrite Hnil.
    destruct limitPools as [[|id ids]|]; reflexivity.
Qed.

(** ** The batch *)

Lemma getPricingFromRpc_one_batch (this : HydrexFi.t) (H : DexHelper)
    (U : Utils) (from to : Token) (amounts : list Z) (side : SwapSide)
    (pools : list Pool) (fees : TransferFeeParams) (w : W) :
  exists sent,
    w_batches (fst (HydrexFi.getPricingFromRpc this H U from to amounts side
                      pools fees w))
    = w_batches w ++ sent
    /\ (List.length sent <= 1)%nat
    /\ (forall batch c, In batch sent -> In c batch ->
          quoteCallOf this U from to side pools c).
Proof.
  unfold HydrexFi.getPricingFromRpc.
  destruct (List.length pools =? 0)%nat.
  { exists []. simpl. rewrite app_nil_r.
    split; [reflexivity|]. split; [lia|]. intros ? ? []. }
  unfold bind at 1. unfold Js.log at 1.
  destruct (all_defined _) as [chunked|].
  2:{ exists []. simpl. rewrite app_nil_r.
      split; [reflexivity|]. split; [lia|]. intros ? ? []. }
  unfold bind at 1. unfold send. cbn [w_logs w_batches].
  match goal with
  | |- context [tryAggregate H false ?b] => set (calldata := b)
  end.
  exists [calldata]. split.
  - destruct (tryAggregate H false calldata) as [results|e]; [|reflexivity].
    unfold bind, lift, ret, Js.log.
    destruct (forallb _ results); destruct (mapR _ _); reflexivity.
  - split; [simpl; lia|].
    intros batch c [<-|[]] Hc. unfold calldata in Hc.
    apply in_flat_map in Hc. destruct Hc as (pool & Hpool & Hc).
    apply in_map_iff in Hc. destruct Hc as (a & <- & _).
    unfold quoteCallOf, HydrexFi.getMultiCallData. cbn.
    repeat split; try (destruct side; reflexivity).
    now exists pool.
Qed.

(** X14: [getPricesVolume] sends at most one batch of calls, and every call
    of it is a quote: addressed to the configured quoter with the quote gas
    limit, for the wrapped source and destination tokens, with the function
    of the side, price limit 0 and the deployer of a registered pool. *)
Theorem getPricesVolume_one_batch_to_quoter (this : HydrexFi.t)
    (H : DexHelper) (U : Utils) (srcToken destToken : Token)
    (amounts : list Z) (side : SwapSide) (blockNumber : Z)
    (limitPools : option (list string)) (fees : TransferFeeParams) (w : W) :
  exists sent,
    w_batches (fst (HydrexFi.getPricesVolume this H U srcToken destToken
                      amounts side blockNumber limitPools fees w))
    = w_batches w ++ sent
    /\ (List.length sent <= 1)%nat
    /\ (forall batch c, In batch sent -> In c batch ->
          quoteCallOf this U (wrapETH H srcToken) (wrapETH H destToken) side
                      (Factory.pools (HydrexFi.factory this)) c).
Proof.
  assert (Hnone : exists sent : list (list MultiCallParams),
            w_batches w = w_batches w ++ sent
            /\ (List.length sent <= 1)%nat
            /\ (forall batch c, In batch sent -> In c batch ->
                  quoteCallOf this U (wrapETH H srcToken) (wrapETH H destToken)
                              side (Factory.pools (HydrexFi.factory this)) c)).
  { exists []. rewrite app_nil_r.
    split; [reflexivity|]. split; [simpl; lia|]. intros ? ? []. }
  unfold HydrexFi.getPricesVolume, try_catch.
  assert (Hbody : exists sent,
            w_batches (fst (HydrexFi.getPricesVolume_try this H U srcToken
                              destToken amounts side blockNumber limitPools
                              fees w))
            = w_batches w ++ sent
            /\ (List.length sent <= 1)%nat
            /\ (forall batch c, In batch sent -> In c batch ->
                  quoteCallOf this U (wrapETH H srcToken) (wrapETH H destToken)
                              side (Factory.pools (HydrexFi.factory this)) c)).
  { unfold HydrexFi.getPricesVolume_try, HydrexFi._getLoweredAddresses.
    destruct (isSrcTokenTransferFeeToBeExchanged U fees && SwapSide_eqb side BUY);
      [exact Hnone|].
    destruct (String.eqb _ _); [exact Hnone|].
    match goal with
    | |- context [HydrexFi.getPricingFromRpc this H U ?a ?b amounts side ?ps fees]
      => set (pools := ps)
    end.
    destruct (getPricingFromRpc_one_batch this H U (wrapETH H srcToken)
                (wrapETH H destToken) amounts side pools fees w)
      as (sent & Hb & Hlen & Hshape).
    exists sent. split.
    - unfold bind.
      destruct (HydrexFi.getPricingFromRpc this H U (wrapETH H srcToken)
                  (wrapETH H destToken) amounts side pools fees w)
        as [w1 [r|e]]; exact Hb.
    - split; [exact Hlen|].
      intros batch c Hbatch Hc.
      destruct (Hshape batch c Hbatch Hc)
        as (Ht & Hg & Hf & Hfrom & Hto & Hl & pool & Hpool & Hdep).
      repeat (split; [assumption|]).
      exists pool. split; [|assumption].
      assert (Hsub : In pool
                (Factory.getAvailablePoolsForPair H (HydrexFi.factory this)
                   (toLowerCase (address (wrapETH H srcToken)))
                   (toLowerCase (address (wrapETH H destToken))) blockNumber)).
      { unfold pools in Hpool.
        destruct limitPools as [[|id ids]|]; try exact Hpool.
        apply filter_In in Hpool. apply Hpool. }
      unfold Factory.getAvailablePoolsForPair in Hsub.
      apply (Permutation_in _ (sort_perm _ _)), filter_In in Hsub.
      apply Hsub. }
  destruct (HydrexFi.getPricesVolume_try this H U srcToken destToken amounts
              side blockNumber limitPools fees w) as [w1 [r|e]].
  - exact Hbody.
  - unfold bind, Js.log, ret. exact Hbody.
Qed.

(** ** Entries and pools *)

Lemma map_snd_indexed {A B} (g : A -> B) (l : list A) :
  map (fun e : nat * A => g (snd e)) (indexed l) = map g l.
Proof.
  unfold indexed. generalize 0%nat.
  induction l as [|x r IH]; intros s; simpl; [reflexivity | now rewrite IH].
Qed.

Section Entries.

Variables (this : HydrexFi.t) (H : DexHelper) (U : Utils).
Variables (from to : Token) (side : SwapSide) (fees : TransferFeeParams).


End Entries.

(** X16: the identifier a price entry carries for a pool (built from the
    pool's own tokens) is the one [getPoolIdentifiers] lists for the
    request (built from the request's tokens), so an entry can be selected
    through [limitPools]. *)
Theorem pool_identifier_is_listed (this : HydrexFi.t) (H : DexHelper)
    (srcToken destToken : Token) (side : SwapSide) (blockNumber : Z)
    (pool : Pool) :
  let a := toLowerCase (address (wrapETH H srcToken)) in
  let b := toLowerCase (address (wrapETH H destToken)) in
  wrapETH_address H a = a ->
  wrapETH_address H b = b ->
  a <> b ->
  In pool (Factory.getAvailablePoolsForPair H (HydrexFi.factory this) a b
                                            blockNumber) ->
  HydrexFi.getPoolIdentifier this (token0 pool) (token1 pool) (deployer pool)
  = HydrexFi.getPoolIdentifier this a b (deployer pool)
  /\ In (HydrexFi.getPoolIdentifier this (token0 pool) (token1 pool)
                                    (deployer pool))
        (Dex.getPoolIdentifiers this H srcToken destToken side blockNumber).
Proof.
  intros a b Ha Hb Hab Hin.
  assert (Heq : HydrexFi.getPoolIdentifier this (token0 pool) (token1 pool)
                                           (deployer pool)
                = HydrexFi.getPoolIdentifier this a b (deployer pool)).
  { unfold Factory.getAvailablePoolsForPair in Hin.
    apply (Permutation_in _ (sort_perm _ _)), filter_In in Hin.
    destruct Hin as [_ Hm]. apply pair_matches_iff in Hm.
    rewrite Ha, Hb in Hm.
    assert (La : toLowerCase a = a) by apply toLowerCase_idem.
    assert (Lb : toLowerCase b = b) by apply toLowerCase_idem.
    rewrite La, Lb in Hm.
    unfold HydrexFi.getPoolIdentifier.
    destruct Hm as [[-> ->]|[-> ->]]; [reflexivity|].
    now rewrite (sortTokens_sym b a). }
  split; [exact Heq|]. rewrite Heq.
  unfold Dex.getPoolIdentifiers, HydrexFi._getLoweredAddresses.
  fold a b. destruct (String.eqb_spec a b); [contradiction|].
  destruct (Factory.getAvailablePoolsForPair H (HydrexFi.factory this) a b
              blockNumber) as [|p ps]; [contradiction|].
  cbn [List.length Nat.eqb].
  now apply (in_map (fun pool => HydrexFi.getPoolIdentifier this a b
                                   (deployer pool))).
Qed.

(** ** The mock price *)


(** ** Pool-state events *)

(** X18: a Burn undoes a Mint of the same liquidity: the state after both
    is the state before, in every field, and the Mint alone adds exactly
    the payload's liquidity. *)
Theorem mint_then_burn_restores (event : LogDescription) (state : PoolState)
    (log log' : Log) (delta : Z) :
  EventPool.bigint_or_zero (arg_liquidity (args event)) = Ok delta ->
  exists minted,
    EventPool.handleMint event state log = Some minted
    /\ liquidity minted = liquidity state + delta
    /\ EventPool.handleBurn event minted log' = Some state.
Proof.
  intros Hd. unfold EventPool.handleMint, EventPool.handleBurn.
  rewrite Hd. simpl. eexists. split; [reflexivity|]. split; [reflexivity|].
  destruct state. unfold EventPool.set_liquidity. simpl.
  do 2 f_equal. lia.
Qed.

(** X19: what an event can change.  Whenever the pool's [processLog]
    returns a state, the log decoded to an event, the fee-growth counters
    and the pool metadata are those of the prior state, only a Swap can
    have changed the price or the tick, and only a Mint or a Burn the
    liquidity. *)
Theorem EventPool_processLog_frame (p : EventPool.t) (state : PoolState)
    (log : Log) (w : W) :
  match EventPool.processLog p state log w with
  | (_, Ok (Some state')) =>
      exists event,
        EventPool.logDecoder p log = Ok event
        /\ feeGrowthGlobal0X128 state' = feeGrowthGlobal0X128 state
        /\ feeGrowthGlobal1X128 state' = feeGrowthGlobal1X128 state
        /\ state_token0 state' = state_token0 state
        /\ state_token1 state' = state_token1 state
        /\ state_fee state' = state_fee state
        /\ (name event <> "Swap" ->
              sqrtPriceX96 state' = sqrtPriceX96 state
              /\ tick state' = tick state)
        /\ (name event <> "Mint" -> name event <> "Burn" ->
              liquidity state' = liquidity state)
  | (_, Ok None) => True
  | (_, Throw _) => True
  end.
Proof.
  unfold EventPool.processLog, bind, try_catch, lift, ret.
  destruct (EventPool.logDecoder p log) as [event|e].
  2:{ unfold catchParseLogError, Js.log. exact I. }
  unfold EventPool.handlers. simpl.
  destruct (String.eqb_spec (name event) "Swap") as [Es|Es].
  { unfold EventPool.handleSwap.
    destruct (EventPool.bigint_or_prior _ _); simpl;
      exists event; repeat split; try reflexivity; try congruence;
      intros; rewrite Es in *; congruence. }
  destruct (String.eqb_spec (name event) "Mint") as [Em|Em].
  { unfold EventPool.handleMint.
    destruct (EventPool.bigint_or_zero _); simpl;
      exists event; repeat split; try reflexivity; congruence. }
  destruct (String.eqb_spec (name event) "Burn") as [Eb|Eb].
  { unfold EventPool.handleBurn.
    destruct (EventPool.bigint_or_zero _); simpl;
      exists event; repeat split; try reflexivity; congruence. }
  destruct (String.eqb_spec (name event) "Collect") as [Ec|Ec].
  { unfold EventPool.handleCollect. exists event. repeat split. }
  exact I.
Qed.

(** ** Path encoding *)

Lemma encodePath_fold (rest : list PathStep) (s : nat) (vals types : list string) :
  fold_left Dex.encodePath_step (combine (seq (S s) (List.length rest)) rest)
            (vals, types)
  = (vals ++ flat_map (fun hop => [step_deployer hop; tokenOut hop]) rest,
     types ++ repeat "address" (2 * List.length rest)).
Proof.
  revert s vals types. induction rest as [|hop r IH]; intros s vals types.
  - simpl. now rewrite !app_nil_r.
  - cbn [List.length seq combine fold_left Dex.encodePath_step Nat.eqb].
    rewrite IH. rewrite <- !app_assoc. f_equal. f_equal.
    replace (2 * S (List.length r))%nat with (S (S (2 * List.length r))) by lia.
    reflexivity.
Qed.

(** X20: for a path of [n >= 1] hops [_encodePath] packs [2n + 1]
    addresses: the first hop's [tokenIn], then the deployer and [tokenOut]
    of every hop in order; for BUY the same addresses in reverse order. *)
Theorem encodePath_shape (pack : list string -> list string -> Res string)
    (path : list PathStep) :
  path <> [] ->
  let types := repeat "address" (2 * List.length path + 1) in
  Dex._encodePath pack path SELL = pack types (pathAddresses path)
  /\ Dex._encodePath pack path BUY = pack types (rev (pathAddresses path))
  /\ List.length (pathAddresses path) = List.length types.
Proof.
  intros Hne types. destruct path as [|first rest]; [congruence|].
  assert (Hfold :
    fold_left Dex.encodePath_step (indexed (first :: rest)) ([], [])
    = (pathAddresses (first :: rest), types)).
  { unfold indexed. cbn [List.length seq combine fold_left Dex.encodePath_step
                         Nat.eqb].
    rewrite encodePath_fold. unfold pathAddresses, types. f_equal.
    replace (2 * List.length (first :: rest) + 1)%nat
      with (3 + 2 * List.length rest)%nat by (simpl; lia).
    reflexivity. }
  unfold Dex._encodePath.
  change (List.length (first :: rest) =? 0)%nat with false. cbv iota.
  rewrite Hfold. cbn [SwapSide_eqb].
  split; [reflexivity|]. split.
  - f_equal. unfold types. apply rev_repeat.
  - unfold types, pathAddresses. simpl.
    rewrite repeat_length. f_equal.
    rewrite (flat_map_constant_length (c := 2%nat)) by reflexivity.
    lia.
Qed.

(** ** Top pools *)

Lemma key_neg {A} (key : A -> Q) (p x : A) :
  Qneg (key p - key x) = true <-> (key p < key x)%Q.
Proof.
  unfold Qneg. rewrite negb_true_iff. split.
  - intros E. destruct (Qlt_le_dec (key p) (key x)) as [|G]; [assumption|].
    assert (Qle_bool 0 (key p - key x) = true) by (apply Qle_bool_iff; lra).
    congruence.
  - intros L. destruct (Qle_bool 0 (key p - key x)) eqn:E; [|reflexivity].
    apply Qle_bool_iff in E. lra.
Qed.

Lemma sortBy_insert_sorted {A} (key : A -> Q) (p : A) (l : list A) :
  StronglySorted (fun a b => (key a <= key b)%Q) l ->
  StronglySorted (fun a b => (key a <= key b)%Q)
                 (sort_insert (fun a b => (key a - key b)%Q) p l).
Proof.
  induction l as [|x r IH]; intros Hl; simpl.
  - constructor; constructor.
  - inversion Hl as [|? ? Hr Hx]; subst.
    destruct (Qneg (key p - key x)) eqn:E.
    + apply key_neg in E. constructor; [assumption|].
      constructor; [lra|].
      eapply Forall_impl; [|exact Hx]. simpl. intros b Hb. lra.
    + assert (key x <= key p)%Q.
      { destruct (Qlt_le_dec (key p) (key x)) as [L|]; [|assumption].
        apply key_neg in L. congruence. }
      constructor; [now apply IH|].
      eapply Permutation_Forall; [symmetry; apply sort_insert_perm|].
      constructor; assumption.
Qed.

Lemma sortBy_sorted {A} (key : A -> Q) (l : list A) :
  StronglySorted (fun a b => (key a <= key b)%Q) (Dex.sortBy key l).
Proof.
  unfold Dex.sortBy, sort.
  assert (G : forall acc,
            StronglySorted (fun a b => (key a <= key b)%Q) acc ->
            StronglySorted (fun a b => (key a <= key b)%Q)
              (fold_left (fun s p => sort_insert (fun a b => (key a - key b)%Q) p s)
                         l acc)).
  { induction l as [|x r IH]; intros acc Hacc; simpl; [assumption|].
    apply IH, sortBy_insert_sorted, Hacc. }
  apply G. constructor.
Qed.

Lemma StronglySorted_firstn {A} (R : A -> A -> Prop) (n : nat) (l : list A) :
  StronglySorted R l -> StronglySorted R (firstn n l).
Proof.
  revert n. induction l as [|x r IH]; intros [|n] Hl; simpl;
    try constructor.
  - inversion Hl; subst. now apply IH.
  - inversion Hl as [|? ? _ Hx]; subst.
    rewrite Forall_forall in *. intros y Hy. apply Hx.
    rewrite <- (firstn_skipn n r). apply in_or_app. now left.
Qed.

(** X21: [getTopPoolsForToken] never throws and sends no multicall.  It
    returns at most [limit] pools in descending order of liquidity, each
    under the DEX key, with a lower-case address and exactly one connector
    token, in lower case too. *)
Theorem getTopPoolsForToken_bounded_sorted (this : HydrexFi.t)
    (request : string -> nat -> Res Dex.TopResponse) (tokenAddress : string)
    (limit : nat) (w : W) :
  exists w' pools,
    Dex.getTopPoolsForToken this request tokenAddress limit w = (w', Ok pools)
    /\ (List.length pools <= limit)%nat
    /\ byLiquidity pools
    /\ Forall (fun pool =>
                 Dex.liquidity_exchange pool = HydrexFi.dexKey this
                 /\ lowercase (Dex.liquidity_address pool)
                 /\ exists connector,
                      Dex.connectorTokens pool = [connector]
                      /\ lowercase (Dex.connector_address connector))
              pools
    /\ w_batches w' = w_batches w.
Proof.
  assert (Hnil : (List.length (@nil Dex.PoolLiquidity) <= limit)%nat
                 /\ byLiquidity []
                 /\ Forall (fun pool =>
                      Dex.liquidity_exchange pool = HydrexFi.dexKey this
                      /\ lowercase (Dex.liquidity_address pool)
                      /\ exists connector,
                           Dex.connectorTokens pool = [connector]
                           /\ lowercase (Dex.connector_address connector)) []).
  { split; [simpl; lia|]. split; constructor. }
  assert (Hdata : forall (w1 : W) (d : option Dex.TopPoolsData),
    exists w' pools,
      match d with
      | Some (Dex.mkTopData (Some res_pools0) (Some res_pools1)) =>
          ret (firstn limit
                 (Dex.sortBy (fun pool => (-1 * Dex.liquidityUSD pool)%Q)
                    (map (Dex.liquidity_of this Dex.top_token1) res_pools0
                       ++ map (Dex.liquidity_of this Dex.top_token0)
                              res_pools1)))
      | _ =>
          log LvError
            ("Error_" ++ HydrexFi.dexKey this
               ++ "_Subgraph: couldn't fetch the pools from the subgraph")%string ;;;
          ret []
      end w1 = (w', Ok pools)
      /\ (List.length pools <= limit)%nat
      /\ byLiquidity pools
      /\ Forall (fun pool =>
                   Dex.liquidity_exchange pool = HydrexFi.dexKey this
                   /\ lowercase (Dex.liquidity_address pool)
                   /\ exists connector,
                        Dex.connectorTokens pool = [connector]
                        /\ lowercase (Dex.connector_address connector))
                pools
      /\ w_batches w' = w_batches w1).
  { intros w1 d.
    assert (Herr : exists w' pools,
      (log LvError
         ("Error_" ++ HydrexFi.dexKey this
            ++ "_Subgraph: couldn't fetch the pools from the subgraph")%string ;;;
       ret []) w1 = (w', Ok pools)
      /\ (List.length pools <= limit)%nat
      /\ byLiquidity pools
      /\ Forall (fun pool =>
                   Dex.liquidity_exchange pool = HydrexFi.dexKey this
                   /\ lowercase (Dex.liquidity_address pool)
                   /\ exists connector,
                        Dex.connectorTokens pool = [connector]
                        /\ lowercase (Dex.connector_address connector))
                pools
      /\ w_batches w' = w_batches w1).
    { eexists; eexists. split; [reflexivity|].
      destruct Hnil as (? & ? & ?). repeat split; auto. }
    destruct d as [[[p0|] [p1|]]|]; try exact Herr.
    eexists; eexists. split; [reflexivity|].
    split; [apply firstn_le_length|]. split; [|split; [|reflexivity]].
    - apply StronglySorted_firstn.
      pose proof (sortBy_sorted (fun pool => (-1 * Dex.liquidityUSD pool)%Q)
                    (map (Dex.liquidity_of this Dex.top_token1) p0
                       ++ map (Dex.liquidity_of this Dex.top_token0) p1)) as Hs.
      unfold byLiquidity.
      eapply StronglySorted_ind with (P := fun l =>
        StronglySorted (fun a b => (Dex.liquidityUSD b <= Dex.liquidityUSD a)%Q) l);
        [constructor | | exact Hs].
      intros a l _ IHl Hfa. constructor; [exact IHl|].
      eapply Forall_impl; [|exact Hfa]. simpl. intros b Hb. lra.
    - apply Forall_forall. intros pool Hin.
      assert (Hin' : In pool
                (Dex.sortBy (fun pool => (-1 * Dex.liquidityUSD pool)%Q)
                   (map (Dex.liquidity_of this Dex.top_token1) p0
                      ++ map (Dex.liquidity_of this Dex.top_token0) p1))).
      { rewrite <- (firstn_skipn limit). apply in_or_app. now left. }
      apply (Permutation_in _ (sort_perm _ _)) in Hin'.
      apply in_app_or in Hin'.
      destruct Hin' as [Hm|Hm]; apply in_map_iff in Hm;
        destruct Hm as (raw & <- & _); unfold Dex.liquidity_of; simpl;
        (split; [reflexivity|]); (split; [apply toLowerCase_idem|]);
        eexists; (split; [reflexivity | apply toLowerCase_idem]). }
  unfold Dex.getTopPoolsForToken, Dex._querySubgraph.
  unfold bind at 1. unfold try_catch.
  unfold bind at 1. unfold lift.
  destruct (request (toLowerCase tokenAddress) limit) as [res|e].
  - unfold ret at 1. apply Hdata.
  - unfold bind at 1. unfold Js.log at 1. unfold ret at 1.
    destruct (Hdata (mkWorld
                       (w_logs w
                          ++ [(LvWarn,
                               (HydrexFi.dexKey this
                                  ++ ": can not query subgraph (likely in test environment): "
                                  ++ message e)%string)])
                       (w_batches w))
                    (Some (Dex.mkTopData (Some []) (Some []))))
      as (w' & pools & Hrun & Hrest).
    exists w', pools. split; [exact Hrun | exact Hrest].
Qed.

Lemma queryAll_while_error (H : DexHelper) (f : Factory.t) (blockNumber : Z)
    (pages : nat -> list RawPool) (bad : SubgraphResponse) (m : string)
    (rest : list string) (fuel d j n : nat) (acc : list Pool) (w : W) :
  (forall i, (i <= j + d)%nat ->
     exists res,
       querySubgraph H (mkQuery (Some blockNumber)
                                (Factory.defaultPerPageLimit * Z.of_nat i)
                                Factory.defaultPerPageLimit)
       = Ok res
       /\ noErrors res /\ data_pools res = Some (pages i)) ->
  (forall i, (i <= j + d)%nat -> List.length (pages i) = 1000%nat) ->
  querySubgraph H (mkQuery (Some blockNumber)
                           (Factory.defaultPerPageLimit * Z.of_nat (S (j + d)))
                           Factory.defaultPerPageLimit)
  = Ok bad ->
  errors bad = Some (m :: rest) ->
  blockUnavailable m = false ->
  (d < n)%nat ->
  Factory.queryAll_while n (S fuel) H f blockNumber
    (Factory.defaultPerPageLimit * Z.of_nat j) acc
    (map Factory.pool_of_raw (pages j)) w
  = (w, Throw (ErrorMsg m)).
Proof.
  revert j n acc. induction d as [|d IH]; intros j n acc Hq Hfull Hbad He Hm Hn;
    (destruct n as [|n]; [lia|]); cbn [Factory.queryAll_while];
    rewrite length_map, (Hfull j) by lia;
    change (Z.of_nat 1000 =? Factory.defaultPerPageLimit) with true; cbv iota;
    unfold Factory.bindF, bind;
    replace (Factory.defaultPerPageLimit * Z.of_nat j
             + Factory.defaultPerPageLimit)
      with (Factory.defaultPerPageLimit * Z.of_nat (S j)) by lia.
  - rewrite Nat.add_0_r in Hbad.
    now rewrite (queryOnePage_remote_error fuel H f blockNumber _ _ false bad m
                   rest w Hbad He Hm).
  - destruct (Hq (S j) ltac:(lia)) as (res & Hres & Hne & Hdata).
    rewrite (queryOnePage_data fuel H f blockNumber _ _ false res (pages (S j)) w
               Hres Hne Hdata).
    apply (IH (S j) n).
    + intros i Hi. apply Hq. lia.
    + intros i Hi. apply Hfull. lia.
    + now replace (S j + d)%nat with (j + S d)%nat by lia.
    + assumption.
    + assumption.
    + lia.
Qed.

(** X22: the bulk load is all or nothing.  When the pages [0 .. k] are
    full and the subgraph answers page [k + 1] with an error other than an
    unavailable block, [queryAllAvailablePools] throws that error: the
    pools already fetched are dropped, and [initialize] installs the mock
    pools. *)
Theorem bulk_load_error_discards_pages
    (H : DexHelper) (U : Utils) (f : Factory.t) (blockNumber : Z)
    (pages : nat -> list RawPool) (bad : SubgraphResponse) (m : string)
    (rest : list string) (k fuel : nat) (w : W) :
  (forall i, (i <= k)%nat ->
     exists res,
       querySubgraph H (mkQuery (Some blockNumber)
                                (Factory.defaultPerPageLimit * Z.of_nat i)
                                Factory.defaultPerPageLimit)
       = Ok res
       /\ noErrors res /\ data_pools res = Some (pages i)) ->
  (forall i, (i <= k)%nat -> List.length (pages i) = 1000%nat) ->
  querySubgraph H (mkQuery (Some blockNumber)
                           (Factory.defaultPerPageLimit * Z.of_nat (S k))
                           Factory.defaultPerPageLimit)
  = Ok bad ->
  errors bad = Some (m :: rest) ->
  blockUnavailable m = false ->
  (S k < fuel)%nat ->
  Factory.queryAllAvailablePools fuel H f blockNumber w
  = (w, Throw (ErrorMsg m))
  /\ exists w' f',
       Factory.initialize fuel H U f blockNumber w = (w', Ok (Some f'))
       /\ Factory.pools f' = Factory.getMockPoolsForTesting U.
Proof.
  intros Hq Hfull Hbad He Hm Hfuel.
  destruct fuel as [|fuel]; [lia|].
  assert (Hall : Factory.queryAllAvailablePools (S fuel) H f blockNumber w
                 = (w, Throw (ErrorMsg m))).
  { unfold Factory.queryAllAvailablePools, Factory.bindF, bind.
    destruct (Hq 0%nat ltac:(lia)) as (res & Hres & Hne & Hdata).
    rewrite Z.mul_0_r in Hres.
    rewrite (queryOnePage_data fuel H f blockNumber 0 _ false res (pages 0%nat) w
               Hres Hne Hdata).
    change 0 with (Factory.defaultPerPageLimit * Z.of_nat 0) at 1.
    apply (queryAll_while_error H f blockNumber pages bad m rest fuel k 0
             (S fuel)); auto. lia. }
  split; [exact Hall|].
  unfold Factory.initialize, try_catch, Factory.bindF, bind. rewrite Hall.
  eexists; eexists. split; reflexivity.
Qed.

(** X23: a failed top-pools query gives no pool.  When the request throws,
    one warning with the error's message is logged and the result is
    empty; when the answer lacks [data], [pools0] or [pools1], one error
    line is logged and the result is empty. *)
Theorem getTopPoolsForToken_failure_empty (this : HydrexFi.t)
    (request : string -> nat -> Res Dex.TopResponse) (tokenAddress : string)
    (limit : nat) (w : W) :
  (forall e,
     request (toLowerCase tokenAddress) limit = Throw e ->
     Dex.getTopPoolsForToken this request tokenAddress limit w
     = (mkWorld
          (w_logs w
             ++ [(LvWarn,
                  (HydrexFi.dexKey this
                     ++ ": can not query subgraph (likely in test environment): "
                     ++ message e)%string)])
          (w_batches w),
        Ok []))
  /\ (forall res,
        request (toLowerCase tokenAddress) limit = Ok res ->
        (Dex.top_data res = None
         \/ exists d, Dex.top_data res = Some d
                      /\ (Dex.pools0 d = None \/ Dex.pools1 d = None)) ->
        Dex.getTopPoolsForToken this request tokenAddress limit w
        = (mkWorld
             (w_logs w
                ++ [(LvError,
                     ("Error_" ++ HydrexFi.dexKey this
                        ++ "_Subgraph: couldn't fetch the pools from the subgraph")%string)])
             (w_batches w),
           Ok [])).
Proof.
  split.
  - intros e He. unfold Dex.getTopPoolsForToken, Dex._querySubgraph.
    unfold bind at 1. unfold try_catch. unfold bind at 1. unfold lift.
    rewrite He. unfold bind, Js.log, ret. simpl. now rewrite firstn_nil.
  - intros res Hr Hmiss. unfold Dex.getTopPoolsForToken, Dex._querySubgraph.
    unfold bind at 1. unfold try_catch. unfold bind at 1. unfold lift.
    rewrite Hr. unfold ret at 1.
    destruct Hmiss as [-> | (d & -> & Hd)]; [reflexivity|].
    destruct d as [p0 p1]. simpl in Hd.
    destruct Hd as [-> | ->]; [reflexivity|].
    destruct p0; reflexivity.
Qed.

(** ** The statements at concrete inputs *)

Lemma queryAllAvailablePools_pages_witness :
  Factory.queryAllAvailablePools 5
    (Examples.helper Examples.allFail (Inputs.paged Inputs.twoPages))
    (Examples.factoryWith Examples.noMatch []) 100 Examples.w0
  = (Examples.w0, Ok (Some (pagesUpTo Inputs.twoPages 1))).
Proof.
  apply (queryAllAvailablePools_concatenates_pages
           (Examples.helper Examples.allFail (Inputs.paged Inputs.twoPages))
           (Examples.factoryWith Examples.noMatch []) 100 Inputs.twoPages 1 5
           Examples.w0).
  - intros i Hi. destruct i as [|[|i]]; [| |lia];
      (eexists; split; [reflexivity|]; split; [left|]; reflexivity).
  - intros i Hi. assert (i = 0%nat) as -> by lia.
    cbv [Inputs.twoPages]. now rewrite length_map, length_seq.
  - simpl. lia.
  - lia.
Defined.

Lemma bulk_load_error_witness :
  Factory.queryAllAvailablePools 5
    (Examples.helper Examples.allFail (Inputs.breaksAfterFirstPage "store error"))
    (Examples.factoryWith Examples.noMatch [Examples.otherPool]) 100 Examples.w0
  = (Examples.w0, Throw (ErrorMsg "store error"))
  /\ exists w' f',
       Factory.initialize 5
         (Examples.helper Examples.allFail
            (Inputs.breaksAfterFirstPage "store error"))
         Examples.utils
         (Examples.factoryWith Examples.noMatch [Examples.otherPool]) 100
         Examples.w0
       = (w', Ok (Some f'))
       /\ Factory.pools f' = Factory.getMockPoolsForTesting Examples.utils.
Proof.
  apply (bulk_load_error_discards_pages
           (Examples.helper Examples.allFail
              (Inputs.breaksAfterFirstPage "store error"))
           Examples.utils
           (Examples.factoryWith Examples.noMatch [Examples.otherPool]) 100
           Inputs.twoPages (mkResponse (Some ["store error"]) None)
           "store error" [] 0 5 Examples.w0).
  - intros i Hi. assert (i = 0%nat) as -> by lia.
    eexists; split; [reflexivity|]; split; [left|]; reflexivity.
  - intros i Hi. assert (i = 0%nat) as -> by lia.
    cbv [Inputs.twoPages]. now rewrite length_map, length_seq.
  - reflexivity.
  - reflexivity.
  - reflexivity.
  - lia.
Defined.

Lemma queryOnePage_fallback_witness :
  Factory.queryOnePageForAllAvailablePoolsFromSubgraph 2
    (Examples.helper Examples.allFail Examples.lateSubgraph)
    (Examples.factoryWith Examples.noMatch []) 100 0 1000 false Examples.w0
  = (mkWorld [(LvInfo, "HydrexFi: subgraph fallback to the latest block...")] [],
     Ok (Some [Factory.pool_of_raw Examples.rawPool])).
Proof.
  apply (queryOnePage_falls_back_to_latest 0
           (Examples.helper Examples.allFail Examples.lateSubgraph)
           (Examples.factoryWith Examples.noMatch []) 100 0 1000
           (mkResponse
              (Some ["Failed to decode block.number value: missing block: 100"])
              None)
           (mkResponse None (Some [Examples.rawPool]))
           "Failed to decode block.number value: missing block: 100" []
           [Examples.rawPool] Examples.w0);
    try reflexivity.
  left; reflexivity.
Defined.

Lemma queryOnePage_never_returns_witness :
  exists w',
    Factory.queryOnePageForAllAvailablePoolsFromSubgraph 7
      (Examples.helper Examples.allFail
         (Examples.failingSubgraph "block 100 is not yet available"))
      (Examples.factoryWith Examples.noMatch []) 100 0 1000 false Examples.w0
    = (w', Ok None)
    /\ List.length (w_logs w') = 7%nat.
Proof.
  apply (queryOnePage_unavailable_latest_never_returns
           (Examples.helper Examples.allFail
              (Examples.failingSubgraph "block 100 is not yet available"))
           (Examples.factoryWith Examples.noMatch []) 100 0 1000 false).
  intros block. do 3 eexists. split; [reflexivity|]. split; reflexivity.
Defined.

Lemma processLog_created_pool_witness :
  Factory.processLog Examples.utils
    (Examples.factoryWith Inputs.poolCreated [Examples.otherPool]) tt
    Examples.mockLog Examples.w0
  = (Examples.w0,
     Ok (Examples.factoryWith Inputs.poolCreated
           [Examples.otherPool;
            mkPool "0x82dbe18346a8656dbb5e76f74bf3ae279cc16b29"
                   "0x4200000000000000000000000000000000000006"
                   "0x833589fcd6edb6e08f4c7c32d4f71b54bda02913"
                   Examples.zero_address 0%Q],
         tt)).
Proof.
  apply (processLog_stores_created_pool Examples.utils
           (Examples.factoryWith Inputs.poolCreated [Examples.otherPool]) tt
           Examples.mockLog
           (mkEvent "Pool"
              (mkArgs None None None
                      (Some "0x4200000000000000000000000000000000000006")
                      (Some "0x833589fCD6eDb6E08f4c7C32D4f71b54bdA02913")
                      None
                      (Some "0x82DBE18346A8656DBB5E76F74BF3AE279CC16B29")))
           "0x4200000000000000000000000000000000000006"
           "0x833589fCD6eDb6E08f4c7C32D4f71b54bdA02913"
           "0x82DBE18346A8656DBB5E76F74BF3AE279CC16B29" Examples.w0);
    try reflexivity.
  discriminate.
Defined.

Lemma processLog_created_custom_pool_witness :
  Factory.processLog Examples.utils
    (Examples.factoryWith Inputs.customPoolCreated [Examples.otherPool]) tt
    Examples.mockLog Examples.w0
  = (Examples.w0,
     Ok (Examples.factoryWith Inputs.customPoolCreated
           [Examples.otherPool;
            mkPool "0x82dbe18346a8656dbb5e76f74bf3ae279cc16b29"
                   "0x4200000000000000000000000000000000000006"
                   "0x833589fcd6edb6e08f4c7c32d4f71b54bda02913"
                   "0x00000000000000000000000000000000000000dd" 0%Q],
         tt)).
Proof.
  apply (processLog_stores_created_custom_pool Examples.utils
           (Examples.factoryWith Inputs.customPoolCreated [Examples.otherPool])
           tt Examples.mockLog
           (mkEvent "CustomPool"
              (mkArgs None None None
                      (Some "0x4200000000000000000000000000000000000006")
                      (Some "0x833589fCD6eDb6E08f4c7C32D4f71b54bdA02913")
                      (Some "0x00000000000000000000000000000000000000DD")
                      (Some "0x82DBE18346A8656DBB5E76F74BF3AE279CC16B29")))
           "0x4200000000000000000000000000000000000006"
           "0x833589fCD6eDb6E08f4c7C32D4f71b54bdA02913"
           "0x00000000000000000000000000000000000000DD"
           "0x82DBE18346A8656DBB5E76F74BF3AE279CC16B29" Examples.w0);
    try reflexivity.
  discriminate.
Defined.


Lemma loaded_pool_is_found_witness :
  exists f',
    Factory.initialize 3
      (Examples.helper Examples.allFail (Inputs.paged (fun _ => [Examples.rawPool])))
      Examples.utils (Examples.factoryWith Examples.noMatch []) 100 Examples.w0
    = (Examples.w0, Ok (Some f'))
    /\ In (Factory.pool_of_raw Examples.rawPool)
          (Factory.getAvailablePoolsForPair
             (Examples.helper Examples.allFail
                (Inputs.paged (fun _ => [Examples.rawPool])))
             f' (address Examples.USDC) (address Examples.WETH) 100).
Proof.
  destruct (loaded_pool_is_found 2
              (Examples.helper Examples.allFail
                 (Inputs.paged (fun _ => [Examples.rawPool])))
              Examples.utils (Examples.factoryWith Examples.noMatch []) 100
              (mkResponse None (Some [Examples.rawPool])) [Examples.rawPool]
              Examples.rawPool Examples.w0)
    as (f' & Hrun & _ & _ & Hin); try reflexivity.
  - left; reflexivity.
  - simpl; lia.
  - left; reflexivity.
  - exists f'. split; [exact Hrun | exact Hin].
Defined.

Lemma no_pool_no_quote_witness :
  Dex.getPoolIdentifiers (Examples.dex [Examples.otherPool]) Examples.base
    Examples.WETH Inputs.DAI SELL 100 = []
  /\ HydrexFi.getPricesVolume (Examples.dex [Examples.otherPool]) Examples.base
       Examples.utils Examples.WETH Inputs.DAI Examples.amounts11 SELL 100 None
       Examples.noFees Examples.w0
     = (Examples.w0, Ok None).
Proof.
  apply (no_pool_no_quote (Examples.dex [Examples.otherPool]) Examples.base
           Examples.utils Examples.WETH Inputs.DAI Examples.amounts11 SELL 100
           None Examples.noFees Examples.w0).
  intros p [<-|[]]. reflexivity.
Defined.


Lemma pool_identifier_is_listed_witness :
  In (HydrexFi.getPoolIdentifier (Examples.dex [Examples.otherPool])
        (token0 Examples.otherPool) (token1 Examples.otherPool)
        (deployer Examples.otherPool))
     (Dex.getPoolIdentifiers (Examples.dex [Examples.otherPool]) Examples.base
        Examples.USDC Examples.WETH BUY 100).
Proof.
  apply (pool_identifier_is_listed (Examples.dex [Examples.otherPool])
           Examples.base Examples.USDC Examples.WETH BUY 100
           Examples.otherPool).
  - reflexivity.
  - reflexivity.
  - discriminate.
  - left; reflexivity.
Defined.

Lemma mint_then_burn_witness :
  exists minted,
    EventPool.handleMint Inputs.mint250 Examples.state0 Examples.mockLog
    = Some minted
    /\ liquidity minted = 1250
    /\ EventPool.handleBurn Inputs.mint250 minted Examples.mockLog
       = Some Examples.state0.
Proof.
  apply (mint_then_burn_restores Inputs.mint250 Examples.state0
           Examples.mockLog Examples.mockLog 250).
  reflexivity.
Defined.

Lemma encodePath_shape_witness :
  Dex._encodePath Inputs.joinPack
    [Inputs.hop "0xA" "0xD1" "0xB"; Inputs.hop "0xB" "0xD2" "0xC"] BUY
  = Ok "0xC,0xD2,0xB,0xD1,0xA".
Proof.
  apply (encodePath_shape Inputs.joinPack
           [Inputs.hop "0xA" "0xD1" "0xB"; Inputs.hop "0xB" "0xD2" "0xC"]).
  discriminate.
Defined.

Lemma handleSwap_nonzero_tick_witness :
  EventPool.handleSwap Inputs.swapToTickMinus12 Examples.state0 Examples.mockLog
  = Some (EventPool.set_price_tick Examples.state0
            79228162514264337593543950000 (-12)).
Proof.
  apply (handleSwap_overwrites_nonzero_tick Inputs.swapToTickMinus12
           Examples.state0 Examples.mockLog "79228162514264337593543950000"
           79228162514264337593543950000 (-12)).
  - reflexivity.
  - discriminate.
  - reflexivity.
  - reflexivity.
  - discriminate.
Defined.
